(** * QuizMe: the quiz state tracker, the question fetcher and the quiz screen

    A shallow embedding of [question_model.py], [quiz_brain.py], [data.py],
    [main.py] and the state-carrying part of [ui.py].

    Conventions.
    - A Python [int] is a [Z]; [len] of a list is [Z.of_nat (length l)].
    - A Python [str] is a [string] that holds its UTF-8 bytes. [str.lower]
      belongs to the interpreter; [lower] below transcribes it from
      CPython 3.11, with the case tables of Unicode 14.0.
    - A call that may raise returns a [py] value: [Returns v] or [Raises e].
    - A method of a class takes the object and returns the updated object
      next to its result.
    - [html.unescape] belongs to the Python standard library; the quiz
      operations take it as the parameter [unescape], and [html.unescape]
      below transcribes the library function for the examples.
    - [fetch_question_data] talks to the question service and may loop
      for ever; it is an interaction tree over the events [netE], run
      against a service that answers its i-th request with [service i]. *)

From Stdlib Require Import ZArith List Sorted String Ascii Bool Lia.
From Stdlib Require Import DecimalString DecimalZ DecimalPos.
From ITree Require Import ITree ITreeFacts Events.State Events.StateFacts.
From ITree Require Import Props.Leaf.
Import ListNotations.
Import ITreeNotations.
Import LeafNotations.

Local Open Scope itree_scope.
Local Open Scope string_scope.
Local Open Scope Z_scope.

(* ===================================================================== *)
(** ** Python values                                                      *)
(* ===================================================================== *)

(** The exceptions the modelled code can raise. *)
Inductive exception : Type :=
| IndexError       (* list index out of range *)
| AttributeError   (* attribute of None *)
| TypeError        (* None is not subscriptable *)
| RequestException (* any requests error that is not an HTTPError,
                      and a body that is not the expected JSON *).

(** The outcome of a call: a value, or an exception that propagates. *)
Inductive py (A : Type) : Type :=
| Returns (a : A)
| Raises (e : exception).
Arguments Returns {A} a.
Arguments Raises {A} e.

Definition bind {A B : Type} (c : py A) (k : A -> py B) : py B :=
  match c with
  | Returns a => k a
  | Raises e => Raises e
  end.

Notation "'let*' x ':=' c 'in' k" := (bind c (fun x => k))
  (at level 10, x pattern, c at level 100, k at level 200).

(** [len(l)]. *)
Definition len {A : Type} (l : list A) : Z := Z.of_nat (List.length l).

(** [l[i]]: a negative index counts from the end; an index outside
    [-len(l), len(l))] raises [IndexError]. *)
Definition getitem {A : Type} (l : list A) (i : Z) : py A :=
  let j := if i <? 0 then i + len l else i in
  if (0 <=? j) && (j <? len l) then
    match nth_error l (Z.to_nat j) with
    | Some a => Returns a
    | None => Raises IndexError
    end
  else Raises IndexError.

(** [str(n)], as an f-string renders an [int]. *)
Definition str_of_int (n : Z) : string := NilZero.string_of_int (Z.to_int n).

(* ===================================================================== *)
(** ** str.lower (CPython 3.11, [Objects/unicodeobject.c])               *)
(* ===================================================================== *)

(** [c.lower()] on a byte of an ASCII string ([Py_TOLOWER]): A-Z become
    a-z. *)
Definition Py_TOLOWER (c : ascii) : ascii :=
  let n := nat_of_ascii c in
  if (Nat.leb 65 n && Nat.leb n 90)%bool then ascii_of_nat (n + 32) else c.

(** [_Py_bytes_lower], the lowering of a [str] that is all ASCII. *)
Fixpoint Py_bytes_lower (s : string) : string :=
  match s with
  | EmptyString => EmptyString
  | String c r => String (Py_TOLOWER c) (Py_bytes_lower r)
  end.

(** A byte as a number, and back. *)
Definition ord (c : ascii) : Z := Z.of_N (N_of_ascii c).

Definition byte (n : Z) : ascii := ascii_of_N (Z.to_N n).

(** [PyUnicode_IS_ASCII]. *)
Fixpoint PyUnicode_IS_ASCII (s : string) : bool :=
  match s with
  | EmptyString => true
  | String c r => (ord c <? 128) && PyUnicode_IS_ASCII r
  end.

(** The byte at index [i], or -1 past the end. *)
Definition byte_at (s : string) (i : nat) : Z :=
  match String.get i s with
  | Some c => ord c
  | None => -1
  end.

Definition trail_at (s : string) (i : nat) : bool :=
  (128 <=? byte_at s i) && (byte_at s i <=? 191).

Definition bits_at (s : string) (i : nat) : Z := byte_at s i - 128.

(** The code point whose UTF-8 form begins [s], with the number of its
    bytes: no overlong form, no surrogate, nothing above U+10FFFF. *)
Definition utf8_sequence (s : string) : option (Z * nat) :=
  let b := byte_at s 0 in
  if (0 <=? b) && (b <? 128) then Some (b, 1%nat)
  else if (194 <=? b) && (b <=? 223) && trail_at s 1 then
    Some ((b - 192) * 64 + bits_at s 1, 2%nat)
  else if (224 <=? b) && (b <=? 239) && trail_at s 1 && trail_at s 2 then
    let c := (b - 224) * 4096 + bits_at s 1 * 64 + bits_at s 2 in
    if (2048 <=? c) && negb ((55296 <=? c) && (c <=? 57343))
    then Some (c, 3%nat) else None
  else if (240 <=? b) && (b <=? 244)
          && trail_at s 1 && trail_at s 2 && trail_at s 3 then
    let c := (b - 240) * 262144 + bits_at s 1 * 4096
             + bits_at s 2 * 64 + bits_at s 3 in
    if (65536 <=? c) && (c <=? 1114111) then Some (c, 4%nat) else None
  else None.

(** The code points of a [str] held as UTF-8 bytes. A byte that begins no
    well-formed sequence stands for the code point U+DC00 + byte, as with
    the error handler [surrogateescape]. [skip] counts the bytes of the
    sequence under way. *)
Fixpoint utf8_decode_from (skip : nat) (s : string) : list Z :=
  match s with
  | EmptyString => []
  | String b r =>
      match skip with
      | S k => utf8_decode_from k r
      | O =>
          match utf8_sequence s with
          | Some (c, n) => c :: utf8_decode_from (Nat.pred n) r
          | None => (56320 + ord b) :: utf8_decode_from 0 r
          end
      end
  end.

Definition utf8_decode (s : string) : list Z := utf8_decode_from 0 s.

(** The UTF-8 bytes of one code point; U+DC80 to U+DCFF give back the
    byte they stand for. *)
Definition utf8_encode_char (c : Z) : string :=
  if c <? 128 then String (byte c) ""
  else if c <? 2048 then
    String (byte (192 + c / 64)) (String (byte (128 + c mod 64)) "")
  else if (56448 <=? c) && (c <=? 56575) then String (byte (c - 56320)) ""
  else if c <? 65536 then
    String (byte (224 + c / 4096))
      (String (byte (128 + (c / 64) mod 64))
         (String (byte (128 + c mod 64)) ""))
  else
    String (byte (240 + c / 262144))
      (String (byte (128 + (c / 4096) mod 64))
         (String (byte (128 + (c / 64) mod 64))
            (String (byte (128 + c mod 64)) ""))).

Definition utf8_encode (l : list Z) : string :=
  String.concat "" (List.map utf8_encode_char l).

(** The simple lowercase mappings: [(first, last, step, delta)] says that
    every [step]-th code point from [first] to [last] has the lowercase
    [c + delta]. *)
Definition lowercase_table : list (Z * Z * Z * Z) :=
  [(65, 90, 1, 32); (192, 214, 1, 32); (216, 222, 1, 32); (256, 302, 2, 1);
   (306, 310, 2, 1); (313, 327, 2, 1); (330, 374, 2, 1); (376, 376, 1, -121);
   (377, 381, 2, 1); (385, 385, 1, 210); (386, 388, 2, 1);
   (390, 390, 1, 206); (391, 391, 1, 1); (393, 394, 1, 205);
   (395, 395, 1, 1); (398, 398, 1, 79); (399, 399, 1, 202);
   (400, 400, 1, 203); (401, 401, 1, 1); (403, 403, 1, 205);
   (404, 404, 1, 207); (406, 406, 1, 211); (407, 407, 1, 209);
   (408, 408, 1, 1); (412, 412, 1, 211); (413, 413, 1, 213);
   (415, 415, 1, 214); (416, 420, 2, 1); (422, 422, 1, 218);
   (423, 423, 1, 1); (425, 425, 1, 218); (428, 428, 1, 1);
   (430, 430, 1, 218); (431, 431, 1, 1); (433, 434, 1, 217);
   (435, 437, 2, 1); (439, 439, 1, 219); (440, 440, 1, 1); (444, 444, 1, 1);
   (452, 452, 1, 2); (453, 453, 1, 1); (455, 455, 1, 2); (456, 456, 1, 1);
   (458, 458, 1, 2); (459, 475, 2, 1); (478, 494, 2, 1); (497, 497, 1, 2);
   (498, 500, 2, 1); (502, 502, 1, -97); (503, 503, 1, -56);
   (504, 542, 2, 1); (544, 544, 1, -130); (546, 562, 2, 1);
   (570, 570, 1, 10795); (571, 571, 1, 1); (573, 573, 1, -163);
   (574, 574, 1, 10792); (577, 577, 1, 1); (579, 579, 1, -195);
   (580, 580, 1, 69); (581, 581, 1, 71); (582, 590, 2, 1); (880, 882, 2, 1);
   (886, 886, 1, 1); (895, 895, 1, 116); (902, 902, 1, 38);
   (904, 906, 1, 37); (908, 908, 1, 64); (910, 911, 1, 63);
   (913, 929, 1, 32); (931, 939, 1, 32); (975, 975, 1, 8); (984, 1006, 2, 1);
   (1012, 1012, 1, -60); (1015, 1015, 1, 1); (1017, 1017, 1, -7);
   (1018, 1018, 1, 1); (1021, 1023, 1, -130); (1024, 1039, 1, 80);
   (1040, 1071, 1, 32); (1120, 1152, 2, 1); (1162, 1214, 2, 1);
   (1216, 1216, 1, 15); (1217, 1229, 2, 1); (1232, 1326, 2, 1);
   (1329, 1366, 1, 48); (4256, 4293, 1, 7264); (4295, 4295, 1, 7264);
   (4301, 4301, 1, 7264); (5024, 5103, 1, 38864); (5104, 5109, 1, 8);
   (7312, 7354, 1, -3008); (7357, 7359, 1, -3008); (7680, 7828, 2, 1);
   (7838, 7838, 1, -7615); (7840, 7934, 2, 1); (7944, 7951, 1, -8);
   (7960, 7965, 1, -8); (7976, 7983, 1, -8); (7992, 7999, 1, -8);
   (8008, 8013, 1, -8); (8025, 8031, 2, -8); (8040, 8047, 1, -8);
   (8072, 8079, 1, -8); (8088, 8095, 1, -8); (8104, 8111, 1, -8);
   (8120, 8121, 1, -8); (8122, 8123, 1, -74); (8124, 8124, 1, -9);
   (8136, 8139, 1, -86); (8140, 8140, 1, -9); (8152, 8153, 1, -8);
   (8154, 8155, 1, -100); (8168, 8169, 1, -8); (8170, 8171, 1, -112);
   (8172, 8172, 1, -7); (8184, 8185, 1, -128); (8186, 8187, 1, -126);
   (8188, 8188, 1, -9); (8486, 8486, 1, -7517); (8490, 8490, 1, -8383);
   (8491, 8491, 1, -8262); (8498, 8498, 1, 28); (8544, 8559, 1, 16);
   (8579, 8579, 1, 1); (9398, 9423, 1, 26); (11264, 11311, 1, 48);
   (11360, 11360, 1, 1); (11362, 11362, 1, -10743); (11363, 11363, 1, -3814);
   (11364, 11364, 1, -10727); (11367, 11371, 2, 1);
   (11373, 11373, 1, -10780); (11374, 11374, 1, -10749);
   (11375, 11375, 1, -10783); (11376, 11376, 1, -10782);
   (11378, 11378, 1, 1); (11381, 11381, 1, 1); (11390, 11391, 1, -10815);
   (11392, 11490, 2, 1); (11499, 11501, 2, 1); (11506, 11506, 1, 1);
   (42560, 42604, 2, 1); (42624, 42650, 2, 1); (42786, 42798, 2, 1);
   (42802, 42862, 2, 1); (42873, 42875, 2, 1); (42877, 42877, 1, -35332);
   (42878, 42886, 2, 1); (42891, 42891, 1, 1); (42893, 42893, 1, -42280);
   (42896, 42898, 2, 1); (42902, 42920, 2, 1); (42922, 42922, 1, -42308);
   (42923, 42923, 1, -42319); (42924, 42924, 1, -42315);
   (42925, 42925, 1, -42305); (42926, 42926, 1, -42308);
   (42928, 42928, 1, -42258); (42929, 42929, 1, -42282);
   (42930, 42930, 1, -42261); (42931, 42931, 1, 928); (42932, 42946, 2, 1);
   (42948, 42948, 1, -48); (42949, 42949, 1, -42307);
   (42950, 42950, 1, -35384); (42951, 42953, 2, 1); (42960, 42960, 1, 1);
   (42966, 42968, 2, 1); (42997, 42997, 1, 1); (65313, 65338, 1, 32);
   (66560, 66599, 1, 40); (66736, 66771, 1, 40); (66928, 66938, 1, 39);
   (66940, 66954, 1, 39); (66956, 66962, 1, 39); (66964, 66965, 1, 39);
   (68736, 68786, 1, 64); (71840, 71871, 1, 32); (93760, 93791, 1, 32);
   (125184, 125217, 1, 34)].

(** The code points with the property Cased, as ranges [(first, last)]. *)
Definition cased_table : list (Z * Z) :=
  [(65, 90); (97, 122); (170, 170); (181, 181); (186, 186); (192, 214);
   (216, 246); (248, 442); (444, 447); (452, 659); (661, 696); (704, 705);
   (736, 740); (837, 837); (880, 883); (886, 887); (890, 893); (895, 895);
   (902, 902); (904, 906); (908, 908); (910, 929); (931, 1013); (1015, 1153);
   (1162, 1327); (1329, 1366); (1376, 1416); (4256, 4293); (4295, 4295);
   (4301, 4301); (4304, 4346); (4349, 4351); (5024, 5109); (5112, 5117);
   (7296, 7304); (7312, 7354); (7357, 7359); (7424, 7615); (7680, 7957);
   (7960, 7965); (7968, 8005); (8008, 8013); (8016, 8023); (8025, 8025);
   (8027, 8027); (8029, 8029); (8031, 8061); (8064, 8116); (8118, 8124);
   (8126, 8126); (8130, 8132); (8134, 8140); (8144, 8147); (8150, 8155);
   (8160, 8172); (8178, 8180); (8182, 8188); (8305, 8305); (8319, 8319);
   (8336, 8348); (8450, 8450); (8455, 8455); (8458, 8467); (8469, 8469);
   (8473, 8477); (8484, 8484); (8486, 8486); (8488, 8488); (8490, 8493);
   (8495, 8500); (8505, 8505); (8508, 8511); (8517, 8521); (8526, 8526);
   (8544, 8575); (8579, 8580); (9398, 9449); (11264, 11492); (11499, 11502);
   (11506, 11507); (11520, 11557); (11559, 11559); (11565, 11565);
   (42560, 42605); (42624, 42653); (42786, 42887); (42891, 42894);
   (42896, 42954); (42960, 42961); (42963, 42963); (42965, 42969);
   (42997, 42998); (43000, 43002); (43824, 43866); (43868, 43880);
   (43888, 43967); (64256, 64262); (64275, 64279); (65313, 65338);
   (65345, 65370); (66560, 66639); (66736, 66771); (66776, 66811);
   (66928, 66938); (66940, 66954); (66956, 66962); (66964, 66965);
   (66967, 66977); (66979, 66993); (66995, 67001); (67003, 67004);
   (67456, 67456); (67459, 67461); (67463, 67504); (67506, 67514);
   (68736, 68786); (68800, 68850); (71840, 71903); (93760, 93823);
   (119808, 119892); (119894, 119964); (119966, 119967); (119970, 119970);
   (119973, 119974); (119977, 119980); (119982, 119993); (119995, 119995);
   (119997, 120003); (120005, 120069); (120071, 120074); (120077, 120084);
   (120086, 120092); (120094, 120121); (120123, 120126); (120128, 120132);
   (120134, 120134); (120138, 120144); (120146, 120485); (120488, 120512);
   (120514, 120538); (120540, 120570); (120572, 120596); (120598, 120628);
   (120630, 120654); (120656, 120686); (120688, 120712); (120714, 120744);
   (120746, 120770); (120772, 120779); (122624, 122633); (122635, 122654);
   (125184, 125251); (127280, 127305); (127312, 127337); (127344, 127369)].

(** The code points with the property Case_Ignorable. *)
Definition case_ignorable_table : list (Z * Z) :=
  [(39, 39); (46, 46); (58, 58); (94, 94); (96, 96); (168, 168); (173, 173);
   (175, 175); (180, 180); (183, 184); (688, 879); (884, 885); (890, 890);
   (900, 901); (903, 903); (1155, 1161); (1369, 1369); (1375, 1375);
   (1425, 1469); (1471, 1471); (1473, 1474); (1476, 1477); (1479, 1479);
   (1524, 1524); (1536, 1541); (1552, 1562); (1564, 1564); (1600, 1600);
   (1611, 1631); (1648, 1648); (1750, 1757); (1759, 1768); (1770, 1773);
   (1807, 1807); (1809, 1809); (1840, 1866); (1958, 1968); (2027, 2037);
   (2042, 2042); (2045, 2045); (2070, 2093); (2137, 2139); (2184, 2184);
   (2192, 2193); (2200, 2207); (2249, 2306); (2362, 2362); (2364, 2364);
   (2369, 2376); (2381, 2381); (2385, 2391); (2402, 2403); (2417, 2417);
   (2433, 2433); (2492, 2492); (2497, 2500); (2509, 2509); (2530, 2531);
   (2558, 2558); (2561, 2562); (2620, 2620); (2625, 2626); (2631, 2632);
   (2635, 2637); (2641, 2641); (2672, 2673); (2677, 2677); (2689, 2690);
   (2748, 2748); (2753, 2757); (2759, 2760); (2765, 2765); (2786, 2787);
   (2810, 2815); (2817, 2817); (2876, 2876); (2879, 2879); (2881, 2884);
   (2893, 2893); (2901, 2902); (2914, 2915); (2946, 2946); (3008, 3008);
   (3021, 3021); (3072, 3072); (3076, 3076); (3132, 3132); (3134, 3136);
   (3142, 3144); (3146, 3149); (3157, 3158); (3170, 3171); (3201, 3201);
   (3260, 3260); (3263, 3263); (3270, 3270); (3276, 3277); (3298, 3299);
   (3328, 3329); (3387, 3388); (3393, 3396); (3405, 3405); (3426, 3427);
   (3457, 3457); (3530, 3530); (3538, 3540); (3542, 3542); (3633, 3633);
   (3636, 3642); (3654, 3662); (3761, 3761); (3764, 3772); (3782, 3782);
   (3784, 3789); (3864, 3865); (3893, 3893); (3895, 3895); (3897, 3897);
   (3953, 3966); (3968, 3972); (3974, 3975); (3981, 3991); (3993, 4028);
   (4038, 4038); (4141, 4144); (4146, 4151); (4153, 4154); (4157, 4158);
   (4184, 4185); (4190, 4192); (4209, 4212); (4226, 4226); (4229, 4230);
   (4237, 4237); (4253, 4253); (4348, 4348); (4957, 4959); (5906, 5908);
   (5938, 5939); (5970, 5971); (6002, 6003); (6068, 6069); (6071, 6077);
   (6086, 6086); (6089, 6099); (6103, 6103); (6109, 6109); (6155, 6159);
   (6211, 6211); (6277, 6278); (6313, 6313); (6432, 6434); (6439, 6440);
   (6450, 6450); (6457, 6459); (6679, 6680); (6683, 6683); (6742, 6742);
   (6744, 6750); (6752, 6752); (6754, 6754); (6757, 6764); (6771, 6780);
   (6783, 6783); (6823, 6823); (6832, 6862); (6912, 6915); (6964, 6964);
   (6966, 6970); (6972, 6972); (6978, 6978); (7019, 7027); (7040, 7041);
   (7074, 7077); (7080, 7081); (7083, 7085); (7142, 7142); (7144, 7145);
   (7149, 7149); (7151, 7153); (7212, 7219); (7222, 7223); (7288, 7293);
   (7376, 7378); (7380, 7392); (7394, 7400); (7405, 7405); (7412, 7412);
   (7416, 7417); (7468, 7530); (7544, 7544); (7579, 7679); (8125, 8125);
   (8127, 8129); (8141, 8143); (8157, 8159); (8173, 8175); (8189, 8190);
   (8203, 8207); (8216, 8217); (8228, 8228); (8231, 8231); (8234, 8238);
   (8288, 8292); (8294, 8303); (8305, 8305); (8319, 8319); (8336, 8348);
   (8400, 8432); (11388, 11389); (11503, 11505); (11631, 11631);
   (11647, 11647); (11744, 11775); (11823, 11823); (12293, 12293);
   (12330, 12333); (12337, 12341); (12347, 12347); (12441, 12446);
   (12540, 12542); (40981, 40981); (42232, 42237); (42508, 42508);
   (42607, 42610); (42612, 42621); (42623, 42623); (42652, 42655);
   (42736, 42737); (42752, 42785); (42864, 42864); (42888, 42890);
   (42994, 42996); (43000, 43001); (43010, 43010); (43014, 43014);
   (43019, 43019); (43045, 43046); (43052, 43052); (43204, 43205);
   (43232, 43249); (43263, 43263); (43302, 43309); (43335, 43345);
   (43392, 43394); (43443, 43443); (43446, 43449); (43452, 43453);
   (43471, 43471); (43493, 43494); (43561, 43566); (43569, 43570);
   (43573, 43574); (43587, 43587); (43596, 43596); (43632, 43632);
   (43644, 43644); (43696, 43696); (43698, 43700); (43703, 43704);
   (43710, 43711); (43713, 43713); (43741, 43741); (43756, 43757);
   (43763, 43764); (43766, 43766); (43867, 43871); (43881, 43883);
   (44005, 44005); (44008, 44008); (44013, 44013); (64286, 64286);
   (64434, 64450); (65024, 65039); (65043, 65043); (65056, 65071);
   (65106, 65106); (65109, 65109); (65279, 65279); (65287, 65287);
   (65294, 65294); (65306, 65306); (65342, 65342); (65344, 65344);
   (65392, 65392); (65438, 65439); (65507, 65507); (65529, 65531);
   (66045, 66045); (66272, 66272); (66422, 66426); (67456, 67461);
   (67463, 67504); (67506, 67514); (68097, 68099); (68101, 68102);
   (68108, 68111); (68152, 68154); (68159, 68159); (68325, 68326);
   (68900, 68903); (69291, 69292); (69446, 69456); (69506, 69509);
   (69633, 69633); (69688, 69702); (69744, 69744); (69747, 69748);
   (69759, 69761); (69811, 69814); (69817, 69818); (69821, 69821);
   (69826, 69826); (69837, 69837); (69888, 69890); (69927, 69931);
   (69933, 69940); (70003, 70003); (70016, 70017); (70070, 70078);
   (70089, 70092); (70095, 70095); (70191, 70193); (70196, 70196);
   (70198, 70199); (70206, 70206); (70367, 70367); (70371, 70378);
   (70400, 70401); (70459, 70460); (70464, 70464); (70502, 70508);
   (70512, 70516); (70712, 70719); (70722, 70724); (70726, 70726);
   (70750, 70750); (70835, 70840); (70842, 70842); (70847, 70848);
   (70850, 70851); (71090, 71093); (71100, 71101); (71103, 71104);
   (71132, 71133); (71219, 71226); (71229, 71229); (71231, 71232);
   (71339, 71339); (71341, 71341); (71344, 71349); (71351, 71351);
   (71453, 71455); (71458, 71461); (71463, 71467); (71727, 71735);
   (71737, 71738); (71995, 71996); (71998, 71998); (72003, 72003);
   (72148, 72151); (72154, 72155); (72160, 72160); (72193, 72202);
   (72243, 72248); (72251, 72254); (72263, 72263); (72273, 72278);
   (72281, 72283); (72330, 72342); (72344, 72345); (72752, 72758);
   (72760, 72765); (72767, 72767); (72850, 72871); (72874, 72880);
   (72882, 72883); (72885, 72886); (73009, 73014); (73018, 73018);
   (73020, 73021); (73023, 73029); (73031, 73031); (73104, 73105);
   (73109, 73109); (73111, 73111); (73459, 73460); (78896, 78904);
   (92912, 92916); (92976, 92982); (92992, 92995); (94031, 94031);
   (94095, 94111); (94176, 94177); (94179, 94180); (110576, 110579);
   (110581, 110587); (110589, 110590); (113821, 113822); (113824, 113827);
   (118528, 118573); (118576, 118598); (119143, 119145); (119155, 119170);
   (119173, 119179); (119210, 119213); (119362, 119364); (121344, 121398);
   (121403, 121452); (121461, 121461); (121476, 121476); (121499, 121503);
   (121505, 121519); (122880, 122886); (122888, 122904); (122907, 122913);
   (122915, 122916); (122918, 122922); (123184, 123197); (123566, 123566);
   (123628, 123631); (125136, 125142); (125252, 125259); (127995, 127999);
   (917505, 917505); (917536, 917631); (917760, 917999)].

(** [_PyUnicode_IsCased] and [_PyUnicode_IsCaseIgnorable]. *)
Definition in_ranges (table : list (Z * Z)) (c : Z) : bool :=
  existsb (fun '(first, last) => (first <=? c) && (c <=? last)) table.

Definition PyUnicode_IsCased (c : Z) : bool := in_ranges cased_table c.

Definition PyUnicode_IsCaseIgnorable (c : Z) : bool :=
  in_ranges case_ignorable_table c.

(** [_PyUnicode_ToLowerFull]: the lowercase of one code point. U+0130 is
    the one code point whose lowercase has two. *)
Definition PyUnicode_ToLowerFull (c : Z) : list Z :=
  if c =? 304 then [105; 775]
  else
    match
      find (fun '(first, last, step, _) =>
              (first <=? c) && (c <=? last) && ((c - first) mod step =? 0))
           lowercase_table
    with
    | Some (_, _, _, delta) => [c + delta]
    | None => [c]
    end.

(** The first code point of [l] that is not Case_Ignorable. *)
Fixpoint skip_ignorable (l : list Z) : option Z :=
  match l with
  | [] => None
  | c :: r => if PyUnicode_IsCaseIgnorable c then skip_ignorable r else Some c
  end.

(** [handle_capital_sigma]: U+03A3 becomes the final sigma U+03C2 when a
    cased letter precedes it and none follows, case-ignorable code
    points skipped; else U+03C3. [before] holds the code points before
    it, the nearest first. *)
Definition handle_capital_sigma (before after : list Z) : Z :=
  let preceded :=
    match skip_ignorable before with
    | Some c => PyUnicode_IsCased c
    | None => false
    end in
  let followed :=
    match skip_ignorable after with
    | Some c => PyUnicode_IsCased c
    | None => false
    end in
  if preceded && negb followed then 962 else 963.

(** [lower_ucs4] and [do_lower]: code point by code point. *)
Definition lower_ucs4 (before : list Z) (c : Z) (after : list Z) : list Z :=
  if c =? 931 then [handle_capital_sigma before after]
  else PyUnicode_ToLowerFull c.

Fixpoint do_lower (before data : list Z) : list Z :=
  match data with
  | [] => []
  | c :: after =>
      (lower_ucs4 before c after ++ do_lower (c :: before) after)%list
  end.

(** [s.lower()]: the byte table when the string is all ASCII, the case
    tables of Unicode otherwise. *)
Definition lower (s : string) : string :=
  if PyUnicode_IS_ASCII s then Py_bytes_lower s
  else utf8_encode (do_lower [] (utf8_decode s)).

(** Equality up to the case of the letters A-Z, stated without [lower]:
    the two strings have the same length and, position by position,
    carry the same byte or the two cases of one of these letters. *)
Definition is_upper (c : ascii) : bool :=
  let n := nat_of_ascii c in (Nat.leb 65 n && Nat.leb n 90)%bool.

Definition same_letter (c d : ascii) : Prop :=
  c = d
  \/ (is_upper c = true /\ nat_of_ascii d = (nat_of_ascii c + 32)%nat)
  \/ (is_upper d = true /\ nat_of_ascii c = (nat_of_ascii d + 32)%nat).

Inductive eq_ignore_case : string -> string -> Prop :=
| eic_nil : eq_ignore_case EmptyString EmptyString
| eic_cons c d s t :
    same_letter c d -> eq_ignore_case s t ->
    eq_ignore_case (String c s) (String d t).

(* ===================================================================== *)
(** ** html.unescape (Python standard library, [html/__init__.py])        *)
(* ===================================================================== *)

(** A [str] is held here as its UTF-8 bytes. The table of named
    references [html.entities.html5] (2231 names, all ASCII, with and
    without the closing semicolon) is the parameter [html5]. [int] is
    taken without CPython's limit on the length of a decimal literal. *)
Module html.

Definition code (c : ascii) : N := N_of_ascii c.

Definition between (lo hi n : N) : bool := (N.leb lo n && N.leb n hi)%bool.

(** [[0-9]] and [[0-9a-fA-F]] *)
Definition is_digit (c : ascii) : bool := between 48 57 (code c).

Definition is_hexdigit (c : ascii) : bool :=
  (is_digit c || between 65 70 (code c) || between 97 102 (code c))%bool.

(** [[^\t\n\f <&#;]] *)
Definition is_name_char (c : ascii) : bool :=
  negb (existsb (N.eqb (code c)) [9; 10; 12; 32; 60; 38; 35; 59]%N).

(** A byte that continues a character begun by an earlier byte. *)
Definition is_continuation (c : ascii) : bool := between 128 191 (code c).

(** [p+], greedy: the longest run of characters in [p], and the rest. *)
Fixpoint span (p : ascii -> bool) (s : string) : string * string :=
  match s with
  | EmptyString => (EmptyString, EmptyString)
  | String c r =>
      if p c then let (a, b) := span p r in (String c a, b)
      else (EmptyString, s)
  end.

(** [[^\t\n\f <&#;]{1,n}], greedy: at most [n] characters. *)
Fixpoint span_name (n : nat) (s : string) : string * string :=
  match s with
  | EmptyString => (EmptyString, EmptyString)
  | String c r =>
      if negb (is_name_char c) then (EmptyString, s)
      else if is_continuation c then
        let (a, b) := span_name n r in (String c a, b)
      else
        match n with
        | O => (EmptyString, s)
        | S n' => let (a, b) := span_name n' r in (String c a, b)
        end
  end.

(** [;?] *)
Definition optional_semicolon (s : string) : string * string :=
  match s with
  | String ";" r => (";", r)
  | _ => ("", s)
  end.

Definition nonempty (s : string) : bool :=
  match s with EmptyString => false | _ => true end.

(** [_charref] matched right after an ampersand:
    [#[0-9]+;?], else [#[xX][0-9a-fA-F]+;?], else
    [[^\t\n\f <&#;]{1,32};?]. Gives group 1 and what follows the match. *)
Definition charref_match (s : string) : option (string * string) :=
  match s with
  | String "#" r =>
      let (ds, r1) := span is_digit r in
      if nonempty ds then
        let (sc, r2) := optional_semicolon r1 in
        Some ("#" ++ ds ++ sc, r2)
      else
        match r with
        | String x r' =>
            if (Ascii.eqb x "x" || Ascii.eqb x "X")%bool then
              let (hs, r1') := span is_hexdigit r' in
              if nonempty hs then
                let (sc, r2) := optional_semicolon r1' in
                Some (String "#" (String x (hs ++ sc)), r2)
              else None
            else None
        | EmptyString => None
        end
  | _ =>
      let (nm, r1) := span_name 32 s in
      if nonempty nm then
        let (sc, r2) := optional_semicolon r1 in
        Some (nm ++ sc, r2)
      else None
  end.

(** [s.rstrip(';')] *)
Fixpoint rstrip_semicolon (s : string) : string :=
  match s with
  | EmptyString => EmptyString
  | String c r =>
      let r' := rstrip_semicolon r in
      if (Ascii.eqb c ";" && negb (nonempty r'))%bool then EmptyString
      else String c r'
  end.

Definition digit_value (c : ascii) : N :=
  let n := code c in
  if between 48 57 n then n - 48
  else if between 97 102 n then n - 87
  else if between 65 70 n then n - 55
  else 0.

(** [int(s, base)] for a string of digits of that base, which is what
    the regular expression hands over. *)
Fixpoint int_from (base acc : N) (s : string) : N :=
  match s with
  | EmptyString => acc
  | String c r => int_from base (acc * base + digit_value c) r
  end.

Definition int (s : string) (base : N) : N := int_from base 0 s.

(** [chr(n)], as UTF-8. *)
Definition byte (n : N) : string := String (ascii_of_N n) EmptyString.

Definition chr (n : N) : string :=
  if N.ltb n 128 then byte n
  else if N.ltb n 2048 then
    byte (192 + n / 64) ++ byte (128 + n mod 64)
  else if N.ltb n 65536 then
    byte (224 + n / 4096) ++ byte (128 + (n / 64) mod 64)
    ++ byte (128 + n mod 64)
  else
    byte (240 + n / 262144) ++ byte (128 + (n / 4096) mod 64)
    ++ byte (128 + (n / 64) mod 64) ++ byte (128 + n mod 64).

(** [_invalid_charrefs] *)
Definition _invalid_charrefs : list (N * N) :=
  [ (0x00, 0xfffd); (0x0d, 0x0d); (0x80, 0x20ac); (0x81, 0x81);
    (0x82, 0x201a); (0x83, 0x0192); (0x84, 0x201e); (0x85, 0x2026);
    (0x86, 0x2020); (0x87, 0x2021); (0x88, 0x02c6); (0x89, 0x2030);
    (0x8a, 0x0160); (0x8b, 0x2039); (0x8c, 0x0152); (0x8d, 0x8d);
    (0x8e, 0x017d); (0x8f, 0x8f); (0x90, 0x90); (0x91, 0x2018);
    (0x92, 0x2019); (0x93, 0x201c); (0x94, 0x201d); (0x95, 0x2022);
    (0x96, 0x2013); (0x97, 0x2014); (0x98, 0x02dc); (0x99, 0x2122);
    (0x9a, 0x0161); (0x9b, 0x203a); (0x9c, 0x0153); (0x9d, 0x9d);
    (0x9e, 0x017e); (0x9f, 0x0178) ]%N.

Fixpoint lookup (n : N) (t : list (N * N)) : option N :=
  match t with
  | [] => None
  | (k, v) :: t' => if N.eqb k n then Some v else lookup n t'
  end.

(** [_invalid_codepoints] *)
Definition _invalid_codepoints (n : N) : bool :=
  (between 0x1 0x8 n || between 0xe 0x1f n || between 0x7f 0x9f n
   || between 0xfdd0 0xfdef n
   || existsb (N.eqb n)
        [ 0xb; 0xfffe; 0xffff; 0x1fffe; 0x1ffff; 0x2fffe; 0x2ffff;
          0x3fffe; 0x3ffff; 0x4fffe; 0x4ffff; 0x5fffe; 0x5ffff;
          0x6fffe; 0x6ffff; 0x7fffe; 0x7ffff; 0x8fffe; 0x8ffff;
          0x9fffe; 0x9ffff; 0xafffe; 0xaffff; 0xbfffe; 0xbffff;
          0xcfffe; 0xcffff; 0xdfffe; 0xdffff; 0xefffe; 0xeffff;
          0xffffe; 0xfffff; 0x10fffe; 0x10ffff ])%N%bool.

Section Unescape.

(** [_html5]: [html5 name] is [Some v] when [name in _html5] and
    [_html5[name] == v]. *)
Variable html5 : string -> option string.

(** The loop [for x in range(len(s)-1, 1, -1)] of [_replace_charref],
    entered at [x]. *)
Fixpoint longest_name (x : nat) (s : string) : string :=
  match x with
  | O | S O => "&" ++ s
  | S x' =>
      match html5 (substring 0 x s) with
      | Some v => v ++ substring x (String.length s - x) s
      | None => longest_name x' s
      end
  end.

(** [_replace_charref], applied to group 1 of a match. *)
Definition _replace_charref (s : string) : string :=
  match s with
  | String "#" r =>
      let num :=
        match r with
        | String x r' =>
            if (Ascii.eqb x "x" || Ascii.eqb x "X")%bool
            then int (rstrip_semicolon r') 16
            else int (rstrip_semicolon r) 10
        | EmptyString => 0%N
        end in
      match lookup num _invalid_charrefs with
      | Some v => chr v
      | None =>
          if (between 0xD800 0xDFFF num || N.ltb 0x10FFFF num)%bool
          then chr 0xFFFD
          else if _invalid_codepoints num then ""
          else chr num
      end
  | _ =>
      match html5 s with
      | Some v => v
      | None => longest_name (String.length s - 1) s
      end
  end.

(** [_charref.sub(_replace_charref, s)]: matches are looked for from
    left to right and do not overlap; [skip] counts the characters of
    the last match that are still to be passed over. *)
Fixpoint sub (skip : nat) (s : string) : string :=
  match s with
  | EmptyString => EmptyString
  | String c r =>
      match skip with
      | S k => sub k r
      | O =>
          if Ascii.eqb c "&" then
            match charref_match r with
            | Some (g, _) => _replace_charref g ++ sub (String.length g) r
            | None => String c (sub 0 r)
            end
          else String c (sub 0 r)
      end
  end.

Fixpoint contains_amp (s : string) : bool :=
  match s with
  | EmptyString => false
  | String c r => (Ascii.eqb c "&" || contains_amp r)%bool
  end.

(** [html.unescape(s)] *)
Definition unescape (s : string) : string :=
  if negb (contains_amp s) then s else sub 0 s.

End Unescape.

End html.

(* ===================================================================== *)
(** ** question_model.py                                                  *)
(* ===================================================================== *)

(** [class Question]: the text of a question and its correct answer. *)
Record Question : Type := mkQuestion {
  text : string;
  answer : string
}.

(* ===================================================================== *)
(** ** quiz_brain.py                                                      *)
(* ===================================================================== *)

(** [class QuizBrain]: the attributes [__init__] creates. *)
Record QuizBrain : Type := mkQuizBrain {
  question_number : Z;
  score : Z;
  question_list : list Question;
  current_question : option Question;
  total_questions : Z;
  category : string
}.

(** [QuizBrain(q_list)]. *)
Definition QuizBrain_init (q_list : list Question) : QuizBrain :=
  {| question_number := 0;
     score := 0;
     question_list := q_list;
     current_question := None;
     total_questions := 0;
     category := "" |}.

Section QuizBrainMethods.

(** [html.unescape]. *)
Variable unescape : string -> string.

(** [self.category = html.unescape(category)] *)
Definition set_category (self : QuizBrain) (category' : string) : QuizBrain :=
  {| question_number := question_number self;
     score := score self;
     question_list := question_list self;
     current_question := current_question self;
     total_questions := total_questions self;
     category := unescape category' |}.

(** [self.total_questions = total_questions] *)
Definition set_total_number_of_questions (self : QuizBrain) (total : Z)
  : QuizBrain :=
  {| question_number := question_number self;
     score := score self;
     question_list := question_list self;
     current_question := current_question self;
     total_questions := total;
     category := category self |}.

(** [return self.question_number < len(self.question_list)] *)
Definition still_has_questions (self : QuizBrain) : bool :=
  question_number self <? len (question_list self).

(** [next_question]: the subscript raises before any attribute is
    written, so a failing call leaves the object as it was. *)
Definition next_question (self : QuizBrain) : py (QuizBrain * string) :=
  let* q := getitem (question_list self) (question_number self) in
  let self' :=
    {| question_number := question_number self + 1;
       score := score self;
       question_list := question_list self;
       current_question := Some q;
       total_questions := total_questions self;
       category := category self |} in
  let q_text := unescape (text q) in
  Returns (self', "Q." ++ str_of_int (question_number self') ++ ": " ++ q_text).

(** [check_answer]: reading [.answer] of [None] raises. *)
Definition check_answer (self : QuizBrain) (user_answer : string)
  : py (QuizBrain * bool) :=
  match current_question self with
  | None => Raises AttributeError
  | Some q =>
      let correct_answer := answer q in
      if String.eqb (lower user_answer) (lower correct_answer) then
        Returns ({| question_number := question_number self;
                    score := score self + 1;
                    question_list := question_list self;
                    current_question := current_question self;
                    total_questions := total_questions self;
                    category := category self |}, true)
      else Returns (self, false)
  end.

End QuizBrainMethods.

(** The object [check_answer] leaves after a right answer. *)
Definition credited (self : QuizBrain) : QuizBrain :=
  {| question_number := question_number self;
     score := score self + 1;
     question_list := question_list self;
     current_question := current_question self;
     total_questions := total_questions self;
     category := category self |}.

(** The object [next_question] leaves when it fetched [q]. *)
Definition shown (self : QuizBrain) (q : Question) : QuizBrain :=
  {| question_number := question_number self + 1;
     score := score self;
     question_list := question_list self;
     current_question := Some q;
     total_questions := total_questions self;
     category := category self |}.

(** The invariant of the data model. *)
Definition invariant (self : QuizBrain) : Prop :=
  score self <= question_number self
  /\ question_number self <= len (question_list self).

(** Two objects that agree on every attribute but the named ones. *)
Definition same_but_score (a b : QuizBrain) : Prop :=
  question_number a = question_number b
  /\ question_list a = question_list b
  /\ current_question a = current_question b
  /\ total_questions a = total_questions b
  /\ category a = category b.

Definition same_but_position (a b : QuizBrain) : Prop :=
  score a = score b
  /\ question_list a = question_list b
  /\ total_questions a = total_questions b
  /\ category a = category b.

Definition same_but_category (a b : QuizBrain) : Prop :=
  question_number a = question_number b
  /\ score a = score b
  /\ question_list a = question_list b
  /\ current_question a = current_question b
  /\ total_questions a = total_questions b.

Definition same_but_total (a b : QuizBrain) : Prop :=
  question_number a = question_number b
  /\ score a = score b
  /\ question_list a = question_list b
  /\ current_question a = current_question b
  /\ category a = category b.

(* ===================================================================== *)
(** ** Sequences of calls on one QuizBrain                                *)
(* ===================================================================== *)

(** The methods a caller can invoke on a quiz. *)
Inductive call : Type :=
| NextQuestion
| CheckAnswer (user_answer : string)
| StillHasQuestions
| SetCategory (category' : string)
| SetTotal (total : Z).

Definition is_next (c : call) : bool :=
  match c with NextQuestion => true | _ => false end.

Section Calls.

Variable unescape : string -> string.

(** One call, keeping the object it leaves behind. *)
Definition call_method (self : QuizBrain) (c : call) : py QuizBrain :=
  match c with
  | NextQuestion =>
      let* (self', _) := next_question unescape self in Returns self'
  | CheckAnswer a => let* (self', _) := check_answer self a in Returns self'
  | StillHasQuestions => Returns self
  | SetCategory s => Returns (set_category unescape self s)
  | SetTotal n => Returns (set_total_number_of_questions self n)
  end.

(** The objects seen after each call of a sequence, up to the first call
    that raises (nothing runs after it). *)
Fixpoint states_after (self : QuizBrain) (cs : list call) : list QuizBrain :=
  match cs with
  | [] => []
  | c :: cs' =>
      match call_method self c with
      | Returns self' => self' :: states_after self' cs'
      | Raises _ => []
      end
  end.

(** The whole sequence runs without raising. *)
Fixpoint runs_clean (self : QuizBrain) (cs : list call) : bool :=
  match cs with
  | [] => true
  | c :: cs' =>
      match call_method self c with
      | Returns self' => runs_clean self' cs'
      | Raises _ => false
      end
  end.

(** The calling discipline of the quiz screen (advance, check, advance,
    ...): [next_question] only while [still_has_questions()] holds, and
    [check_answer] only for a question that was fetched by
    [next_question] and has not been checked yet. [unanswered] tells
    whether such a question is waiting. *)
Definition admissible (unanswered : bool) (self : QuizBrain) (c : call)
  : bool :=
  match c with
  | NextQuestion => still_has_questions self
  | CheckAnswer _ => unanswered
  | _ => true
  end.

Definition unanswered_after (unanswered : bool) (c : call) : bool :=
  match c with
  | NextQuestion => true
  | CheckAnswer _ => false
  | _ => unanswered
  end.

Fixpoint strict (unanswered : bool) (self : QuizBrain) (cs : list call)
  : bool :=
  match cs with
  | [] => true
  | c :: cs' =>
      admissible unanswered self c &&
      match call_method self c with
      | Returns self' => strict (unanswered_after unanswered c) self' cs'
      | Raises _ => true
      end
  end.

(** [reached l n self]: [self] is what some sequence of calls that all
    returned makes of [QuizBrain(l)], and [n] of these calls were
    [next_question]. *)
Inductive reached (l : list Question) : nat -> QuizBrain -> Prop :=
| reached_init : reached l 0 (QuizBrain_init l)
| reached_call n self c self' :
    reached l n self ->
    call_method self c = Returns self' ->
    reached l (if is_next c then S n else n) self'.

(** The driver of the quiz screen, reduced to the quiz object: ask
    [still_has_questions()], and call [next_question] when the answer
    is yes. [poll k self] lists the answers to [k] such questions. *)
Fixpoint poll (k : nat) (self : QuizBrain) : list bool :=
  match k with
  | O => []
  | S k' =>
      if still_has_questions self then
        match next_question unescape self with
        | Returns (self', _) => true :: poll k' self'
        | Raises _ => [true]
        end
      else false :: poll k' self
  end.

(** [n] calls of [next_question] in a row, each made only after
    [still_has_questions()] answered yes; [None] when the answer was no
    before one of them. *)
Fixpoint advance (n : nat) (self : QuizBrain) : option (py QuizBrain) :=
  match n with
  | O => Some (Returns self)
  | S n' =>
      if still_has_questions self then
        match next_question unescape self with
        | Returns (self', _) => advance n' self'
        | Raises e => Some (Raises e)
        end
      else None
  end.

(** What holds of a quiz on [l] between two calls of a strict sequence;
    a question that waits for its answer has not been counted in the
    score yet. *)
Definition between_calls (l : list Question) (unanswered : bool)
    (self : QuizBrain) : Prop :=
  question_list self = l
  /\ 0 <= score self
  /\ score self + (if unanswered then 1 else 0) <= question_number self
  /\ question_number self <= len l
  /\ (unanswered = true -> current_question self <> None).

End Calls.

(* ===================================================================== *)
(** ** data.py                                                            *)
(* ===================================================================== *)

(** One entry of ["results"] in the service's JSON reply, with the keys
    the program reads. *)
Record question_record : Type := mkRecord {
  rec_category : string;
  rec_question : string;
  rec_correct_answer : string
}.

(** What the [try] block of one loop iteration can meet:
    - [Json code results]: [raise_for_status()] passed and the body parsed
      to [{"response_code": code, "results": results}];
    - [HTTPError status]: [raise_for_status()] raised for this status;
    - [Failure e]: something else was raised (no connection, a body that
      is not JSON, ...), which the [except] clause does not catch. *)
Inductive response : Type :=
| Json (response_code : Z) (results : list question_record)
| HTTPError (status_code : Z)
| Failure (e : exception).

(** The lines the function prints. *)
Inductive message : Type :=
| InvalidRequestForAmount (amount : Z)
| ResponseCode (code : Z)
| TryingWithAmount (amount : Z)
| TooManyRequests
| RequestFailed (status_code : Z).

(** The effects of [fetch_question_data]. *)
Variant netE : Type -> Type :=
| Get (amount category_code : Z) : netE response
| Sleep (seconds : Z) : netE unit
| Print (m : message) : netE unit.

(** The body of the [while] loop for the current [number_of_questions];
    [inl n] loops again with [n], [inr r] leaves the function with [r].
    [valid_param] is never set, so the loop condition is
    [number_of_questions > 0]. *)
Definition fetch_iteration (category_code number_of_questions : Z)
  : itree netE (Z + py (option (list question_record))) :=
  if 0 <? number_of_questions then
    r <- ITree.trigger (Get number_of_questions category_code) ;;
    match r with
    | Json code results =>
        if code =? 0 then Ret (inr (Returns (Some results)))
        else
          ITree.trigger (Print (InvalidRequestForAmount number_of_questions)) ;;
          ITree.trigger (Print (ResponseCode code)) ;;
          ITree.trigger (Print (TryingWithAmount (number_of_questions - 1))) ;;
          Ret (inl (number_of_questions - 1))
    | HTTPError status =>
        if status =? 429 then
          ITree.trigger (Print TooManyRequests) ;;
          ITree.trigger (Sleep 2) ;;
          Ret (inl number_of_questions)
        else
          ITree.trigger (Print (RequestFailed status)) ;;
          Ret (inr (Returns None))
    | Failure e => Ret (inr (Raises e))
    end
  else Ret (inr (Returns None)).

(** [fetch_question_data(number_of_questions, category_code)], after
    [int(number_of_questions)]. *)
Definition fetch_question_data (number_of_questions category_code : Z)
  : itree netE (py (option (list question_record))) :=
  ITree.iter (fetch_iteration category_code) number_of_questions.

(** *** The service as the function sees it *)

(** What the outside world records. *)
Inductive entry : Type :=
| Requested (amount category_code : Z)
| Slept (seconds : Z)
| Printed (m : message).

(** [served] requests have been answered so far; [journal] lists what
    happened, oldest first. *)
Record world : Type := mkWorld {
  served : nat;
  journal : list entry
}.

Definition record_entry (w : world) (e : entry) : world :=
  {| served := served w; journal := journal w ++ [e] |}.

(** The service answers its [i]-th request with [service i]. *)
Definition handle (service : nat -> response)
  : netE ~> Monads.stateT world (itree void1) :=
  fun _ e w =>
    match e with
    | Get amount code =>
        Ret ({| served := S (served w);
                journal := journal w ++ [Requested amount code] |},
             service (served w))
    | Sleep s => Ret (record_entry w (Slept s), tt)
    | Print m => Ret (record_entry w (Printed m), tt)
    end.

(** The function run against a service, from a given world. *)
Definition fetch_against (service : nat -> response)
    (number_of_questions category_code : Z) (w : world)
  : itree void1 (world * py (option (list question_record))) :=
  interp_state (handle service)
    (fetch_question_data number_of_questions category_code) w.

(** The amounts asked for, in order, and the pauses taken. *)
Fixpoint amounts (j : list entry) : list Z :=
  match j with
  | [] => []
  | Requested a _ :: j' => a :: amounts j'
  | _ :: j' => amounts j'
  end.

Fixpoint pauses (j : list entry) : list Z :=
  match j with
  | [] => []
  | Slept s :: j' => s :: pauses j'
  | _ :: j' => pauses j'
  end.

(** [n, n-1, ..., n-k+1]. *)
Fixpoint countdown (n : Z) (k : nat) : list Z :=
  match k with
  | O => []
  | S k' => n :: countdown (n - 1) k'
  end.

(** The two replies after which the loop goes on, as tests, and the
    number of replies without results among the [k] replies from the
    [from]-th on. *)
Definition is_invalid (r : response) : bool :=
  match r with
  | Json code _ => negb (code =? 0)
  | _ => false
  end.

Definition is_rate_limited (r : response) : bool :=
  match r with
  | HTTPError status => status =? 429
  | _ => false
  end.

Fixpoint invalid_replies (service : nat -> response) (from k : nat) : nat :=
  match k with
  | O => O
  | S k' =>
      ((if is_invalid (service from) then 1 else 0)
       + invalid_replies service (S from) k')%nat
  end.

(** The world after [k] more requests and the entries [es]. *)
Definition extend (w : world) (k : nat) (es : list entry) : world :=
  {| served := (served w + k)%nat; journal := journal w ++ es |}.

(** What one rate-limited attempt leaves in the journal, and what [k] of
    them in a row leave. *)
Definition rate_limited_attempt (amount category_code : Z) : list entry :=
  [Requested amount category_code; Printed TooManyRequests; Slept 2].

Fixpoint rate_limited_attempts (k : nat) (amount category_code : Z)
  : list entry :=
  match k with
  | O => []
  | S k' =>
      rate_limited_attempt amount category_code
      ++ rate_limited_attempts k' amount category_code
  end.

(** What one attempt answered with a nonzero [response_code] leaves. *)
Definition invalid_attempt (amount category_code code : Z) : list entry :=
  [Requested amount category_code;
   Printed (InvalidRequestForAmount amount);
   Printed (ResponseCode code);
   Printed (TryingWithAmount (amount - 1))].

(** What a journal entry of a run started with [count] questions in
    [category_code] may be: a request for 1 to [count] questions of that
    category, a pause of 2 seconds, or a printed line. *)
Definition expected_entry (count category_code : Z) (e : entry) : Prop :=
  match e with
  | Requested amount code => 1 <= amount <= count /\ code = category_code
  | Slept seconds => seconds = 2
  | Printed _ => True
  end.

(** A reply that parsed but whose [response_code] is not 0. *)
Definition invalid (r : response) : Prop :=
  exists code results, r = Json code results /\ code <> 0.

(** Request [i] is the last one of a run that began in [w] and ended in
    [w']. *)
Definition last_request (w w' : world) (i : nat) : Prop :=
  (served w <= i)%nat /\ served w' = S i.

(** The outcome [r] of such a run of [fetch_question_data(n, _)] is the
    one the reply to its last request brings about: results come from a
    reply with [response_code] 0, an exception from the request that
    raised it, and [None] from a count that was not positive, from a
    reply with another [response_code] or from an HTTP error other than
    429. *)
Definition decided_by_last_reply (service : nat -> response) (n : Z)
    (w w' : world) (r : py (option (list question_record))) : Prop :=
  match r with
  | Returns (Some results) =>
      exists i, last_request w w' i /\ service i = Json 0 results
  | Returns None =>
      (n <= 0 /\ served w' = served w)
      \/ exists i,
           last_request w w' i
           /\ (invalid (service i)
               \/ exists status,
                    service i = HTTPError status /\ status <> 429)
  | Raises e => exists i, last_request w w' i /\ service i = Failure e
  end.

(* ===================================================================== *)
(** ** ui.py                                                              *)
(* ===================================================================== *)

Definition MAIN_COLOR : string := "#375362".
Definition SECONDARY_COLOR : string := "#fafafa".
Definition ACCENT_COLOR : string := "#ff9051".
Definition CORRECT_ANSWER_COLOR : string := "#d0dbc5".
Definition INCORRECT_ANSWER_COLOR : string := "#dbafb8".
Definition FONT_NAME : string := "Bahnschrift SemiLight Condensed".

(** [class QuizInterface]: the quiz, and of each widget the options the
    methods write. [pending] holds the delays, in milliseconds, of the
    [get_next_question] callbacks handed to [window.after] and not run
    yet. *)
Record QuizInterface : Type := mkQuizInterface {
  quiz : QuizBrain;
  question_number_label : string;
  score_label : string;
  category_label : string;
  canvas_bg : string;
  question_text : string;
  question_text_font : string * Z * string;
  button_true_state : string;
  button_false_state : string;
  pending : list Z
}.

Section QuizInterfaceMethods.

Variable unescape : string -> string.

(** [__init__] up to the call of [get_next_question]. *)
Definition widgets (quiz_brain : QuizBrain) : QuizInterface :=
  {| quiz := quiz_brain;
     question_number_label := "";
     score_label := "Score: 0";
     category_label := category quiz_brain;
     canvas_bg := SECONDARY_COLOR;
     question_text := "";
     question_text_font := ("Arial", 14, "italic");
     button_true_state := "normal";
     button_false_state := "normal";
     pending := [] |}.

Definition get_next_question (self : QuizInterface) : py QuizInterface :=
  let bg := SECONDARY_COLOR in
  let score_text := "Score: " ++ str_of_int (score (quiz self)) in
  if still_has_questions (quiz self) then
    let number_text :=
      "Question " ++ str_of_int (question_number (quiz self) + 1)
      ++ "/" ++ str_of_int (total_questions (quiz self)) in
    let* (quiz', q_text) := next_question unescape (quiz self) in
    Returns {| quiz := quiz';
               question_number_label := number_text;
               score_label := score_text;
               category_label := category_label self;
               canvas_bg := bg;
               question_text := q_text;
               question_text_font := question_text_font self;
               button_true_state := button_true_state self;
               button_false_state := button_false_state self;
               pending := pending self |}
  else
    Returns {| quiz := quiz self;
               question_number_label := question_number_label self;
               score_label := score_text;
               category_label := category_label self;
               canvas_bg := bg;
               question_text :=
                 "Total Score: " ++ str_of_int (score (quiz self))
                 ++ "/" ++ str_of_int (question_number (quiz self));
               question_text_font := (FONT_NAME, 25, "bold");
               button_true_state := "disabled";
               button_false_state := "disabled";
               pending := pending self |}.

(** [give_feedback]: colour the card, and have [get_next_question]
    called a second later. *)
Definition give_feedback (self : QuizInterface) (is_right : bool)
  : QuizInterface :=
  {| quiz := quiz self;
     question_number_label := question_number_label self;
     score_label := score_label self;
     category_label := category_label self;
     canvas_bg :=
       if is_right then CORRECT_ANSWER_COLOR else INCORRECT_ANSWER_COLOR;
     question_text := question_text self;
     question_text_font := question_text_font self;
     button_true_state := button_true_state self;
     button_false_state := button_false_state self;
     pending := pending self ++ [1000] |}.

Definition with_quiz (self : QuizInterface) (quiz' : QuizBrain)
  : QuizInterface :=
  {| quiz := quiz';
     question_number_label := question_number_label self;
     score_label := score_label self;
     category_label := category_label self;
     canvas_bg := canvas_bg self;
     question_text := question_text self;
     question_text_font := question_text_font self;
     button_true_state := button_true_state self;
     button_false_state := button_false_state self;
     pending := pending self |}.

Definition true_pressed (self : QuizInterface) : py QuizInterface :=
  let* (quiz', is_right) := check_answer (quiz self) "true" in
  Returns (give_feedback (with_quiz self quiz') is_right).

Definition false_pressed (self : QuizInterface) : py QuizInterface :=
  let* (quiz', is_right) := check_answer (quiz self) "false" in
  Returns (give_feedback (with_quiz self quiz') is_right).

(** [QuizInterface(quiz_brain)], up to [mainloop()]. *)
Definition QuizInterface_init (quiz_brain : QuizBrain) : py QuizInterface :=
  get_next_question (widgets quiz_brain).

(** What the Tk event loop delivers: a click on one of the two buttons,
    or the expiry of the oldest timer set with [after]. A button whose
    state is ["disabled"] does not run its command. *)
Inductive event : Type :=
| ClickTrue
| ClickFalse
| TimerExpires.

Definition drop_pending (self : QuizInterface) : QuizInterface :=
  {| quiz := quiz self;
     question_number_label := question_number_label self;
     score_label := score_label self;
     category_label := category_label self;
     canvas_bg := canvas_bg self;
     question_text := question_text self;
     question_text_font := question_text_font self;
     button_true_state := button_true_state self;
     button_false_state := button_false_state self;
     pending := tl (pending self) |}.

Definition dispatch (self : QuizInterface) (e : event) : py QuizInterface :=
  match e with
  | ClickTrue =>
      if String.eqb (button_true_state self) "disabled" then Returns self
      else true_pressed self
  | ClickFalse =>
      if String.eqb (button_false_state self) "disabled" then Returns self
      else false_pressed self
  | TimerExpires =>
      match pending self with
      | [] => Returns self
      | _ :: _ => get_next_question (drop_pending self)
      end
  end.

(** [mainloop()] over the events of one session. *)
Fixpoint mainloop (self : QuizInterface) (es : list event) : py QuizInterface :=
  match es with
  | [] => Returns self
  | e :: es' => let* self' := dispatch self e in mainloop self' es'
  end.

(* =================================================================== *)
(** ** main.py                                                          *)
(* =================================================================== *)

(** The loop that fills [question_bank]. *)
Definition question_bank (question_data : list question_record)
  : list Question :=
  List.map (fun question =>
         mkQuestion (rec_question question) (rec_correct_answer question))
      question_data.

(** From the value [fetch_question_data] returned to the quiz handed to
    [QuizInterface]: subscripting [None] and taking the first element of
    an empty list raise. *)
Definition main_quiz (number_of_questions : Z)
    (question_data : option (list question_record)) : py QuizBrain :=
  match question_data with
  | None => Raises TypeError
  | Some data =>
      let* first := getitem data 0 in
      let category_name := rec_category first in
      let quiz0 := QuizBrain_init (question_bank data) in
      let quiz1 := set_total_number_of_questions quiz0 number_of_questions in
      Returns (set_category unescape quiz1 category_name)
  end.

End QuizInterfaceMethods.

(* ===================================================================== *)
(** ** Whole games                                                        *)
(* ===================================================================== *)

(** [user_answer] is right for [q], as [check_answer] tests it. *)
Definition right_answer (user_answer : string) (q : Question) : bool :=
  String.eqb (lower user_answer) (lower (answer q)).

(** The number of right answers when the i-th answer is given to the
    i-th question. *)
Fixpoint right_answers (answers : list string) (l : list Question) : Z :=
  match answers, l with
  | a :: answers', q :: l' =>
      (if right_answer a q then 1 else 0) + right_answers answers' l'
  | _, _ => 0
  end.

(** Fetch a question, answer it, fetch the next one, ... *)
Fixpoint play (answers : list string) : list call :=
  match answers with
  | [] => []
  | a :: answers' => NextQuestion :: CheckAnswer a :: play answers'
  end.

(** The answer each button sends. *)
Definition button_answer (true_button : bool) : string :=
  if true_button then "true" else "false".

(** A session at the screen: for each question one click (on TRUE when
    the flag is set, on FALSE otherwise) and then the timer. *)
Fixpoint session (clicks : list bool) : list event :=
  match clicks with
  | [] => []
  | b :: clicks' =>
      (if b then ClickTrue else ClickFalse) :: TimerExpires :: session clicks'
  end.

Section Games.

Variable unescape : string -> string.

(** All calls of a sequence, one after the other. *)
Fixpoint call_all (self : QuizBrain) (cs : list call) : py QuizBrain :=
  match cs with
  | [] => Returns self
  | c :: cs' => let* self' := call_method unescape self c in call_all self' cs'
  end.

(** The screen shows the question at index [k] of [l] and waits for a
    click: the quiz stands behind that question, both buttons work and
    no timer is set. *)
Definition showing (l : list Question) (k : nat) (q : Question)
    (self : QuizInterface) : Prop :=
  question_list (quiz self) = l
  /\ question_number (quiz self) = Z.of_nat (S k)
  /\ nth_error l k = Some q
  /\ current_question (quiz self) = Some q
  /\ button_true_state self = "normal"
  /\ button_false_state self = "normal"
  /\ pending self = [].

(** The screen shows the final score: both buttons are disabled and no
    timer is set. *)
Definition finished (self : QuizInterface) : Prop :=
  question_text self
  = "Total Score: " ++ str_of_int (score (quiz self))
    ++ "/" ++ str_of_int (question_number (quiz self))
  /\ score_label self = "Score: " ++ str_of_int (score (quiz self))
  /\ button_true_state self = "disabled"
  /\ button_false_state self = "disabled"
  /\ pending self = [].

End Games.

(** The screen with other timers pending. *)
Definition set_pending (self : QuizInterface) (timers : list Z)
  : QuizInterface :=
  {| quiz := quiz self;
     question_number_label := question_number_label self;
     score_label := score_label self;
     category_label := category_label self;
     canvas_bg := canvas_bg self;
     question_text := question_text self;
     question_text_font := question_text_font self;
     button_true_state := button_true_state self;
     button_false_state := button_false_state self;
     pending := timers |}.

(** The number of timer expiries among the events. *)
Fixpoint expiries (es : list event) : nat :=
  match es with
  | [] => O
  | TimerExpires :: es' => S (expiries es')
  | _ :: es' => expiries es'
  end.

(** The final screen of a quiz, as [get_next_question] writes it. *)
Definition final_screen (self : QuizInterface) : Prop :=
  still_has_questions (quiz self) = false
  /\ canvas_bg self = SECONDARY_COLOR
  /\ score_label self = "Score: " ++ str_of_int (score (quiz self))
  /\ question_text self
     = "Total Score: " ++ str_of_int (score (quiz self))
       ++ "/" ++ str_of_int (question_number (quiz self))
  /\ question_text_font self = (FONT_NAME, 25, "bold")
  /\ button_true_state self = "disabled"
  /\ button_false_state self = "disabled".

(* ===================================================================== *)
(** ** main.py, from the fetch to the first screen                        *)
(* ===================================================================== *)

Section Main.

Variable unescape : string -> string.

(** [main.py] after [QuizSetup()] has handed over the category code and
    the number of questions: fetch, build the quiz, open the screen. An
    exception raised on the way ends the program. *)
Definition main_program (category_code number_of_questions : Z)
  : itree netE (py QuizInterface) :=
  question_data <- fetch_question_data number_of_questions category_code ;;
  Ret (let* data := question_data in
       let* quiz0 := main_quiz unescape number_of_questions data in
       QuizInterface_init unescape quiz0).

(** The program run against a service. *)
Definition main_against (service : nat -> response)
    (category_code number_of_questions : Z) (w : world)
  : itree void1 (world * py QuizInterface) :=
  interp_state (handle service)
    (main_program category_code number_of_questions) w.

End Main.

(* ===================================================================== *)
(** ** setup.py                                                           *)
(* ===================================================================== *)

(** [class QuizSetup]: the attributes and widget options the methods
    read and write. [int] is taken on the strings [str] produces
    (decimal digits, with a minus sign for a negative number). *)
Module setup.

Definition MAIN_COLOR : string := "#375362".
Definition SECONDARY_COLOR : string := "#fafafa".
Definition ACCENT_COLOR : string := "#ff9051".

(** [options_number_of_questions] *)
Definition options_number_of_questions : list Z := [10; 15; 20; 25; 30].

(** [self.options_category]: the values under "category" and "code". *)
Definition options_category : list (string * Z) :=
  [ ("General Knowledge", 9);
    ("Entertainment: Film", 11);
    ("Entertainment: Music", 12);
    ("Entertainment: Video Games", 15);
    ("Science & Nature", 17);
    ("Science: Computers", 18);
    ("Geography", 22);
    ("History", 23) ].

(** One of the buttons of the number selector: its text and colours. *)
Record number_button : Type := mkButton {
  button_text : string;
  button_bg : string;
  button_fg : string
}.

(** [category_code] is [None] when the loop of [get_quiz_settings] found
    no entry; [window_open] turns false when the window is destroyed. *)
Record QuizSetup : Type := mkQuizSetup {
  category_code : option Z;
  number_of_questions : Z;
  selected_option : string;
  value_category : string;
  number_buttons : list number_button;
  window_open : bool
}.

(** [int(s)]; [None] stands for [ValueError]. *)
Definition int (s : string) : option Z :=
  option_map Z.of_int (NilZero.int_of_string s).

(** The button [create_number_of_questions_selector] makes for [value]. *)
Definition create_button (value : Z) : number_button :=
  if value =? 10
  then mkButton (str_of_int value) ACCENT_COLOR SECONDARY_COLOR
  else mkButton (str_of_int value) SECONDARY_COLOR MAIN_COLOR.

(** [QuizSetup()], up to [mainloop()]. *)
Definition QuizSetup_init : QuizSetup :=
  {| category_code := Some 0;
     number_of_questions := 0;
     selected_option := "10";
     value_category :=
       match options_category with
       | (name, _) :: _ => name
       | [] => ""
       end;
     number_buttons := List.map create_button options_number_of_questions;
     window_open := true |}.

(** [select_option(value, button_frame)] *)
Definition select_option (self : QuizSetup) (value : Z) : QuizSetup :=
  {| category_code := category_code self;
     number_of_questions := number_of_questions self;
     selected_option := str_of_int value;
     value_category := value_category self;
     number_buttons :=
       List.map
         (fun btn =>
            if String.eqb (button_text btn) (str_of_int value)
            then mkButton (button_text btn) ACCENT_COLOR SECONDARY_COLOR
            else mkButton (button_text btn) SECONDARY_COLOR MAIN_COLOR)
         (number_buttons self);
     window_open := window_open self |}.

(** The loop of [get_quiz_settings]: the code of the first entry whose
    category is [category]. *)
Fixpoint find_code (options : list (string * Z)) (category : string)
  : option Z :=
  match options with
  | [] => None
  | (name, code) :: options' =>
      if String.eqb name category then Some code
      else find_code options' category
  end.

(** [get_quiz_settings()]; [None] when [int] raises, which happens after
    [category_code] was stored and before the window is destroyed. *)
Definition get_quiz_settings (self : QuizSetup) : option QuizSetup :=
  let category := value_category self in
  let code := find_code options_category category in
  match int (selected_option self) with
  | None => None
  | Some n =>
      Some {| category_code := code;
              number_of_questions := n;
              selected_option := selected_option self;
              value_category := value_category self;
              number_buttons := number_buttons self;
              window_open := false |}
  end.

(** What the user can do in the window: click one of the number buttons,
    pick an entry of the category menu, click PROCEED, or close the
    window. There is a button for each of
    [options_number_of_questions] and a menu entry for each category of
    [options_category], and no other. *)
Inductive event : Type :=
| ClickNumber (value : Z)
| PickCategory (name : string)
| ClickProceed
| CloseWindow.

Definition close (self : QuizSetup) : QuizSetup :=
  {| category_code := category_code self;
     number_of_questions := number_of_questions self;
     selected_option := selected_option self;
     value_category := value_category self;
     number_buttons := number_buttons self;
     window_open := false |}.

Definition pick (self : QuizSetup) (name : string) : QuizSetup :=
  {| category_code := category_code self;
     number_of_questions := number_of_questions self;
     selected_option := selected_option self;
     value_category := name;
     number_buttons := number_buttons self;
     window_open := window_open self |}.

Definition dispatch (self : QuizSetup) (e : event) : option QuizSetup :=
  match e with
  | ClickNumber value =>
      if existsb (Z.eqb value) options_number_of_questions
      then Some (select_option self value) else Some self
  | PickCategory name =>
      if existsb (fun o => String.eqb (fst o) name) options_category
      then Some (pick self name) else Some self
  | ClickProceed => get_quiz_settings self
  | CloseWindow => Some (close self)
  end.

(** [mainloop()]: events are handled until the window is destroyed. *)
Fixpoint mainloop (self : QuizSetup) (es : list event) : option QuizSetup :=
  match es with
  | [] => Some self
  | e :: es' =>
      if window_open self then
        match dispatch self e with
        | Some self' => mainloop self' es'
        | None => None
        end
      else Some self
  end.

(** The number and the category a sequence of events leaves selected. *)
Fixpoint selected_number (es : list event) (current : Z) : Z :=
  match es with
  | [] => current
  | ClickNumber value :: es' =>
      selected_number es'
        (if existsb (Z.eqb value) options_number_of_questions
         then value else current)
  | _ :: es' => selected_number es' current
  end.

Fixpoint selected_category (es : list event) (current : string) : string :=
  match es with
  | [] => current
  | PickCategory name :: es' =>
      selected_category es'
        (if existsb (fun o => String.eqb (fst o) name) options_category
         then name else current)
  | _ :: es' => selected_category es' current
  end.

(** Only selections: no PROCEED and no closing of the window. *)
Definition selecting (e : event) : bool :=
  match e with
  | ClickNumber _ | PickCategory _ => true
  | _ => false
  end.

(** A button shows the colours of the selected one. *)
Definition highlighted (btn : number_button) : bool :=
  String.eqb (button_bg btn) ACCENT_COLOR.

(** What holds of the window while selections are made: [number] and
    [name] are the selected number and category, nothing has been stored
    yet, and the button of the selected number alone shows the colours
    of a selected button. *)
Definition selecting_state (s : QuizSetup) (number : Z) (name : string)
  : Prop :=
  category_code s = Some 0
  /\ number_of_questions s = 0
  /\ selected_option s = str_of_int number
  /\ value_category s = name
  /\ window_open s = true
  /\ In number options_number_of_questions
  /\ (exists code, In (name, code) options_category)
  /\ List.map button_text (number_buttons s)
     = List.map str_of_int options_number_of_questions
  /\ (forall btn, In btn (number_buttons s) ->
        highlighted btn = String.eqb (button_text btn) (str_of_int number)).

End setup.

(* ===================================================================== *)
(** ** Sample data                                                        *)
(* ===================================================================== *)

(** A table that knows the ampersand only. *)
Definition sample_html5 (name : string) : option string :=
  if String.eqb name "amp;" then Some "&" else None.

(** Three records as the service sends them, with the answers True,
    False, False. *)
Definition sample_data : list question_record :=
  [ mkRecord "Science &amp; Nature"
      "Tom &amp; Jerry are a cat and a mouse." "True";
    mkRecord "Science &amp; Nature"
      "It&#039;s always noon somewhere." "False";
    mkRecord "Science &amp; Nature"
      "Two and two make five." "False" ].

(** The replies of the specification's example: no results for the first
    two requests, the three records for the third. *)
Definition degrading_service (i : nat) : response :=
  match i with
  | O => Json 1 []
  | S O => Json 1 []
  | _ => Json 0 sample_data
  end.

(** A service that never has results, one that is out of order, and one
    that limits the rate without end. *)
Definition empty_service (i : nat) : response := Json 1 [].

Definition broken_service (i : nat) : response := HTTPError 503.

Definition busy_service (i : nat) : response := HTTPError 429.

(** A service that cannot be reached, and one that answers with a valid
    reply without records. *)
Definition unreachable_service (i : nat) : response :=
  Failure RequestException.

Definition hollow_service (i : nat) : response := Json 0 [].

(** The world before the first request. *)
Definition fresh : world := {| served := 0; journal := [] |}.

(** U+00C9 and U+00E9, the capital and the small e with acute accent. *)
Definition capital_e_acute : string := utf8_encode [201].

Definition small_e_acute : string := utf8_encode [233].

Definition first_question : Question :=
  mkQuestion "Tom &amp; Jerry are a cat and a mouse." "True".

Definition second_question : Question :=
  mkQuestion "It&#039;s always noon somewhere." "False".

Definition third_question : Question :=
  mkQuestion "Two and two make five." "False".

Definition sample_questions : list Question :=
  [first_question; second_question; third_question].

(** The screen right after [QuizInterface(quiz)] on the sample
    questions. *)
Definition sample_first_screen : QuizInterface :=
  match
    QuizInterface_init (html.unescape sample_html5)
      (QuizBrain_init sample_questions)
  with
  | Returns ui => ui
  | Raises _ => widgets (QuizBrain_init sample_questions)
  end.

(** The sample quiz after a click and a timer for each of the first two
    questions and two clicks on the third, when the first of the two
    timers expires. *)
Definition sample_last_timer : QuizInterface :=
  match
    let* ui0 := QuizInterface_init (html.unescape sample_html5)
                  (QuizBrain_init sample_questions) in
    mainloop (html.unescape sample_html5) ui0
      (session [true; false] ++ [ClickTrue; ClickTrue])%list
  with
  | Returns ui => drop_pending ui
  | Raises _ => widgets (QuizBrain_init sample_questions)
  end.

(* ===================================================================== *)
(** * Properties                                                          *)
(* ===================================================================== *)

(** ** Strings *)

Lemma is_upper_tolower c :
  is_upper c = true -> nat_of_ascii (Py_TOLOWER c) = (nat_of_ascii c + 32)%nat.
Proof.
  unfold is_upper, Py_TOLOWER. intros H. rewrite H.
  apply andb_true_iff in H as [_ H]. apply Nat.leb_le in H.
  apply nat_ascii_embedding. lia.
Qed.

Lemma not_upper_tolower c : is_upper c = false -> Py_TOLOWER c = c.
Proof. unfold is_upper, Py_TOLOWER. intros H. now rewrite H. Qed.

Lemma nat_of_ascii_inj c d : nat_of_ascii c = nat_of_ascii d -> c = d.
Proof.
  intros H. rewrite <- (ascii_nat_embedding c), <- (ascii_nat_embedding d).
  now rewrite H.
Qed.

Lemma shifted_not_upper c d :
  is_upper c = true -> nat_of_ascii d = (nat_of_ascii c + 32)%nat ->
  is_upper d = false.
Proof.
  unfold is_upper. intros H E. rewrite E.
  apply andb_true_iff in H as [H _]. apply Nat.leb_le in H.
  apply andb_false_iff. right. apply Nat.leb_gt. lia.
Qed.

Lemma tolower_same_letter c d :
  Py_TOLOWER c = Py_TOLOWER d <-> same_letter c d.
Proof.
  split.
  - intros E. destruct (is_upper c) eqn:Uc, (is_upper d) eqn:Ud.
    + left. apply nat_of_ascii_inj.
      apply (f_equal nat_of_ascii) in E.
      rewrite !is_upper_tolower in E by assumption. lia.
    + right. left. split; [exact Uc|].
      rewrite (not_upper_tolower d Ud) in E. rewrite <- E.
      now apply is_upper_tolower.
    + right. right. split; [exact Ud|].
      rewrite (not_upper_tolower c Uc) in E. rewrite E.
      now apply is_upper_tolower.
    + left. now rewrite !not_upper_tolower in E.
  - intros [E | [[U E] | [U E]]].
    + now subst.
    + rewrite (not_upper_tolower d (shifted_not_upper c d U E)).
      apply nat_of_ascii_inj. rewrite E. now apply is_upper_tolower.
    + rewrite (not_upper_tolower c (shifted_not_upper d c U E)).
      apply nat_of_ascii_inj. rewrite E. symmetry.
      now apply is_upper_tolower.
Qed.

Lemma bytes_lower_eq_ignore_case s t :
  Py_bytes_lower s = Py_bytes_lower t <-> eq_ignore_case s t.
Proof.
  revert t. induction s as [|c s IH]; intros [|d t]; cbn.
  - split; [constructor | reflexivity].
  - split; [discriminate | inversion 1].
  - split; [discriminate | inversion 1].
  - split.
    + intros E. injection E as E1 E2. constructor.
      * now apply tolower_same_letter.
      * now apply IH.
    + inversion 1; subst. f_equal.
      * now apply tolower_same_letter.
      * now apply IH.
Qed.

(** On a string that is all ASCII, [lower] is the byte table. *)
Lemma lower_ascii s :
  PyUnicode_IS_ASCII s = true -> lower s = Py_bytes_lower s.
Proof. intros H. unfold lower. now rewrite H. Qed.

(** On strings that are all ASCII, equal lowercase forms mean equality
    up to the case of the letters. *)
Lemma lower_eq_ignore_case s t :
  PyUnicode_IS_ASCII s = true -> PyUnicode_IS_ASCII t = true ->
  lower s = lower t <-> eq_ignore_case s t.
Proof.
  intros Hs Ht. rewrite (lower_ascii s Hs), (lower_ascii t Ht).
  apply bytes_lower_eq_ignore_case.
Qed.

(** Beyond ASCII: the capital E with acute accent, the Kelvin sign, the
    capital I with dot above (whose lowercase has two code points), the
    capital sigma at the end of a word and inside one, and a byte that
    is not UTF-8, which stays. *)
Lemma lower_beyond_ascii :
  lower capital_e_acute = small_e_acute
  /\ lower (utf8_encode [8490]) = "k"
  /\ lower (utf8_encode [304]) = utf8_encode [105; 775]
  /\ lower (utf8_encode [913; 931]) = utf8_encode [945; 962]
  /\ lower (utf8_encode [931; 913]) = utf8_encode [963; 945]
  /\ lower (String (byte 255) "A") = String (byte 255) "a".
Proof. vm_compute. repeat split. Qed.

(** ** Subscripts *)

Lemma getitem_in_range {A : Type} (l : list A) (i : nat) (a : A) :
  nth_error l i = Some a -> getitem l (Z.of_nat i) = Returns a.
Proof.
  intros H. unfold getitem, len.
  assert (i < List.length l)%nat by (apply nth_error_Some; congruence).
  destruct (Z.of_nat i <? 0) eqn:E; [apply Z.ltb_lt in E; lia|].
  replace (0 <=? Z.of_nat i) with true by (symmetry; apply Z.leb_le; lia).
  replace (Z.of_nat i <? Z.of_nat (List.length l)) with true
    by (symmetry; apply Z.ltb_lt; lia).
  cbn. rewrite Nat2Z.id. now rewrite H.
Qed.

Lemma getitem_returns {A : Type} (l : list A) (i : Z) (a : A) :
  0 <= i -> getitem l i = Returns a ->
  i < len l /\ nth_error l (Z.to_nat i) = Some a.
Proof.
  intros Hi. unfold getitem.
  destruct (i <? 0) eqn:E; [apply Z.ltb_lt in E; lia|].
  destruct ((0 <=? i) && (i <? len l)) eqn:B; [|discriminate].
  apply andb_true_iff in B as [_ B]. apply Z.ltb_lt in B.
  destruct (nth_error l (Z.to_nat i)) eqn:N; [|discriminate].
  intros [= ->]. auto.
Qed.

(** ** The quiz object *)

Section QuizBrainFacts.

Variable unescape : string -> string.

Lemma still_has_questions_lt self :
  still_has_questions self = true <->
  question_number self < len (question_list self).
Proof. unfold still_has_questions. apply Z.ltb_lt. Qed.

Lemma next_question_shown self q :
  0 <= question_number self ->
  nth_error (question_list self) (Z.to_nat (question_number self)) = Some q ->
  next_question unescape self =
  Returns (shown self q,
           "Q." ++ str_of_int (question_number self + 1) ++ ": "
           ++ unescape (text q)).
Proof.
  intros H0 Hn. unfold next_question.
  rewrite <- (Z2Nat.id (question_number self)) at 1 by assumption.
  rewrite (getitem_in_range _ _ _ Hn). reflexivity.
Qed.

Lemma next_question_guarded self :
  0 <= question_number self -> still_has_questions self = true ->
  exists q,
    nth_error (question_list self) (Z.to_nat (question_number self)) = Some q
    /\ next_question unescape self =
       Returns (shown self q,
                "Q." ++ str_of_int (question_number self + 1) ++ ": "
                ++ unescape (text q)).
Proof.
  intros H0 H. apply still_has_questions_lt in H. unfold len in H.
  destruct (nth_error (question_list self) (Z.to_nat (question_number self)))
    as [q|] eqn:E.
  - exists q. split; [reflexivity|]. now apply next_question_shown.
  - apply nth_error_None in E. lia.
Qed.

Lemma check_answer_current self q user_answer :
  current_question self = Some q ->
  check_answer self user_answer =
  if String.eqb (lower user_answer) (lower (answer q))
  then Returns (credited self, true) else Returns (self, false).
Proof. intros H. unfold check_answer, credited. rewrite H. reflexivity. Qed.

(** One admissible call returns, keeps what holds between calls, and does
    not move the position back. *)
Lemma admissible_call l u self c :
  between_calls l u self -> admissible u self c = true ->
  exists self',
    call_method unescape self c = Returns self'
    /\ between_calls l (unanswered_after u c) self'
    /\ question_number self <= question_number self'.
Proof.
  intros (Hl & Hs & Hq & Hn & Hc) Ha. destruct c; cbn in Ha |- *.
  - assert (H0 : 0 <= question_number self) by (destruct u; lia).
    destruct (next_question_guarded self H0 Ha) as (q & _ & ->).
    cbn. eexists. split; [reflexivity|].
    apply still_has_questions_lt in Ha. rewrite Hl in Ha.
    repeat split; cbn; try assumption; try lia; try discriminate.
    destruct u; lia.
  - subst u. destruct (current_question self) as [q|] eqn:E;
      [|now exfalso; apply Hc].
    rewrite (check_answer_current _ _ _ E).
    destruct (String.eqb _ _); cbn; eexists; (split; [reflexivity|]);
      repeat split; cbn; try assumption; try lia; try discriminate.
  - exists self. repeat split; try assumption; lia.
  - eexists. split; [reflexivity|]. repeat split; cbn; try assumption; lia.
  - eexists. split; [reflexivity|]. repeat split; cbn; try assumption; lia.
Qed.

Lemma between_calls_invariant l u self :
  between_calls l u self -> invariant self /\ question_list self = l.
Proof.
  intros (Hl & Hs & Hq & Hn & _). unfold invariant. rewrite Hl.
  repeat split; try assumption; destruct u; lia.
Qed.

Lemma strict_runs l cs : forall u self,
  between_calls l u self -> strict unescape u self cs = true ->
  runs_clean unescape self cs = true
  /\ List.length (states_after unescape self cs) = List.length cs
  /\ Forall (fun s => invariant s /\ question_list s = l
                      /\ question_number self <= question_number s)
            (states_after unescape self cs)
  /\ StronglySorted Z.le
       (List.map question_number (self :: states_after unescape self cs)).
Proof.
  induction cs as [|c cs IH]; intros u self Hb Hs; cbn in *.
  - repeat split; constructor; constructor.
  - apply andb_true_iff in Hs as [Ha Hs].
    destruct (admissible_call l u self c Hb Ha) as (self' & E & Hb' & Hle).
    rewrite E in Hs |- *.
    destruct (IH _ _ Hb' Hs) as (Hc & Hlen & Hall & Hsorted).
    repeat split.
    + exact Hc.
    + cbn. now rewrite Hlen.
    + constructor.
      * destruct (between_calls_invariant _ _ _ Hb') as [? ?]. auto.
      * eapply Forall_impl; [|exact Hall]. cbn. intros s (Hi & Hq & Hs').
        split; [exact Hi | split; [exact Hq | lia]].
    + cbn. constructor; [exact Hsorted|].
      constructor; [exact Hle|].
      apply Forall_map. eapply Forall_impl; [|exact Hall].
      cbn. intros s (? & ? & ?). lia.
Qed.

End QuizBrainFacts.

Section ReachedFacts.

Variable unescape : string -> string.

Lemma next_question_returns self self' s :
  0 <= question_number self ->
  next_question unescape self = Returns (self', s) ->
  exists q,
    nth_error (question_list self) (Z.to_nat (question_number self)) = Some q
    /\ question_number self < len (question_list self)
    /\ self' = shown self q
    /\ s = "Q." ++ str_of_int (question_number self + 1) ++ ": "
           ++ unescape (text q).
Proof.
  intros H0. unfold next_question.
  destruct (getitem (question_list self) (question_number self)) as [q|e] eqn:G;
    cbn; [|discriminate].
  destruct (getitem_returns _ _ _ H0 G) as [Hlt Hn].
  intros [= <- <-]. exists q. repeat split; assumption.
Qed.

(** A reached object holds the list it was built on, stands at the number
    of [next_question] calls made, and has the last question fetched as
    its current question. *)
Lemma reached_state l n self :
  reached unescape l n self ->
  question_list self = l
  /\ question_number self = Z.of_nat n
  /\ (n <= List.length l)%nat
  /\ current_question self =
     match n with O => None | S k => nth_error l k end.
Proof.
  induction 1 as [|n self c self' _ (Hl & Hq & Hn & Hc) E]; cbn.
  - repeat split; lia.
  - destruct c; cbn in E |- *.
    + destruct (next_question unescape self) as [[s1 s]|e] eqn:N;
        cbn in E; [|discriminate].
      injection E as <-.
      assert (H0 : 0 <= question_number self) by lia.
      destruct (next_question_returns _ _ _ H0 N) as (q & Hq' & Hlt & -> & _).
      rewrite Hq, Nat2Z.id, Hl in Hq'. unfold len in Hlt. rewrite Hl in Hlt.
      cbn. repeat split; try assumption; try (symmetry; assumption); lia.
    + unfold check_answer in E.
      destruct (current_question self) as [q|] eqn:C; [|discriminate].
      destruct (String.eqb _ _); injection E as <-; cbn;
        repeat split; try assumption; congruence.
    + injection E as <-. repeat split; assumption.
    + injection E as <-. repeat split; assumption.
    + injection E as <-. repeat split; assumption.
Qed.

Lemma poll_finished k : forall self,
  still_has_questions self = false ->
  poll unescape k self = repeat false k.
Proof.
  induction k as [|k IH]; intros self H; cbn; [reflexivity|].
  rewrite H. f_equal. now apply IH.
Qed.

Lemma poll_remaining m k : forall self,
  0 <= question_number self ->
  question_number self + Z.of_nat m = len (question_list self) ->
  poll unescape (m + k) self = (repeat true m ++ repeat false k)%list.
Proof.
  induction m as [|m IH]; intros self H0 Hm.
  - cbn. apply poll_finished. unfold still_has_questions.
    apply Z.ltb_ge. lia.
  - assert (Hs : still_has_questions self = true)
      by (apply still_has_questions_lt; lia).
    destruct (next_question_guarded unescape self H0 Hs) as (q & _ & E).
    cbn. rewrite Hs, E. f_equal. apply IH; cbn; lia.
Qed.

Lemma advance_reaches l n : forall k self,
  reached unescape l k self -> (k + n <= List.length l)%nat ->
  exists self',
    advance unescape n self = Some (Returns self')
    /\ reached unescape l (k + n) self'.
Proof.
  induction n as [|n IH]; intros k self Hr Hk; cbn.
  - exists self. rewrite Nat.add_0_r. auto.
  - destruct (reached_state _ _ _ Hr) as (Hl & Hq & _ & _).
    assert (H0 : 0 <= question_number self) by lia.
    assert (Hs : still_has_questions self = true).
    { apply still_has_questions_lt. unfold len. rewrite Hl, Hq. lia. }
    destruct (next_question_guarded unescape self H0 Hs) as (q & _ & E).
    rewrite Hs, E.
    assert (Hr' : reached unescape l (S k) (shown self q)).
    { apply (reached_call unescape l k self NextQuestion); [exact Hr|].
      cbn. now rewrite E. }
    destruct (IH (S k) _ Hr') as (self' & Ha & Hr''); [lia|].
    exists self'. split; [exact Ha|].
    now replace (k + S n)%nat with (S k + n)%nat by lia.
Qed.

End ReachedFacts.

(** ** html.unescape on the two references of the specification *)

Lemma unescape_numeric_apostrophe html5 :
  html.unescape html5 "It&#039;s" = "It's".
Proof. reflexivity. Qed.

Lemma unescape_named_ampersand html5 :
  html5 "amp;" = Some "&" ->
  html.unescape html5 "Tom &amp; Jerry" = "Tom & Jerry".
Proof. intros H. cbn. rewrite H. reflexivity. Qed.

(* ===================================================================== *)
(** * The claims about the quiz object                                    *)
(* ===================================================================== *)

(** C1. For a quiz driven from its initial state by a strict sequence of
    calls ([next_question] only while [still_has_questions()] holds,
    [check_answer] at most once per fetched question and never before the
    first one), no call raises, and over the whole run the position never
    decreases, the score is at most the position and the position is at
    most the length of the question list, which stays the list the quiz
    was built on. *)
Theorem strict_sequence_keeps_invariant
    (unescape : string -> string) (l : list Question) (cs : list call) :
  strict unescape false (QuizBrain_init l) cs = true ->
  runs_clean unescape (QuizBrain_init l) cs = true
  /\ List.length (states_after unescape (QuizBrain_init l) cs) = List.length cs
  /\ Forall (fun s => invariant s /\ question_list s = l)
       (QuizBrain_init l :: states_after unescape (QuizBrain_init l) cs)
  /\ StronglySorted Z.le
       (List.map question_number
          (QuizBrain_init l :: states_after unescape (QuizBrain_init l) cs)).
Proof.
  intros Hs.
  assert (Hb : between_calls l false (QuizBrain_init l)).
  { unfold between_calls, len. cbn. repeat split; try lia; discriminate. }
  destruct (strict_runs unescape l cs false _ Hb Hs)
    as (Hc & Hlen & Hall & Hsorted).
  split; [exact Hc|]. split; [exact Hlen|]. split; [|exact Hsorted].
  constructor.
  - unfold invariant, len. cbn. repeat split; lia.
  - eapply Forall_impl; [|exact Hall]. cbn. intros s (Hi & Hq & _). auto.
Qed.

Lemma strict_sequence_keeps_invariant_witness :
  Forall (fun s => invariant s /\ question_list s = sample_questions)
    (QuizBrain_init sample_questions
     :: states_after (html.unescape sample_html5)
          (QuizBrain_init sample_questions)
          [NextQuestion; CheckAnswer "true"; StillHasQuestions;
           NextQuestion; CheckAnswer "false";
           NextQuestion; CheckAnswer "true"; StillHasQuestions]).
Proof.
  apply (strict_sequence_keeps_invariant (html.unescape sample_html5)
           sample_questions
           [NextQuestion; CheckAnswer "true"; StillHasQuestions;
            NextQuestion; CheckAnswer "false";
            NextQuestion; CheckAnswer "true"; StillHasQuestions]).
  reflexivity.
Defined.

(** C2. In every state reached after at least one [next_question] call the
    current question is the last one fetched, and [check_answer] compares
    the user's answer with its stored answer without regard to case, which
    in the code is: it compares their lowercase forms. On a match it
    returns [True] and adds exactly 1 to the score, otherwise it returns
    [False] and leaves the object as it is. For answers that are all
    ASCII, the lowercase forms are equal exactly when the two answers are
    equal up to the case of their letters. With the stored answer "True",
    "true" and "TRUE" match and "false" does not; beyond ASCII, a capital
    E with acute accent matches the small one. *)
Theorem check_answer_ignores_case
    (unescape : string -> string) (l : list Question) (n : nat)
    (self : QuizBrain) (user_answer : string) :
  reached unescape l (S n) self ->
  exists q,
    current_question self = Some q
    /\ nth_error l n = Some q
    /\ (lower user_answer = lower (answer q) ->
        check_answer self user_answer = Returns (credited self, true))
    /\ (lower user_answer <> lower (answer q) ->
        check_answer self user_answer = Returns (self, false))
    /\ (PyUnicode_IS_ASCII user_answer = true ->
        PyUnicode_IS_ASCII (answer q) = true ->
        (lower user_answer = lower (answer q)
         <-> eq_ignore_case user_answer (answer q)))
    /\ score (credited self) = score self + 1
    /\ same_but_score self (credited self)
    /\ (answer q = "True" ->
        check_answer self "true" = Returns (credited self, true)
        /\ check_answer self "TRUE" = Returns (credited self, true)
        /\ check_answer self "false" = Returns (self, false))
    /\ (answer q = small_e_acute ->
        check_answer self capital_e_acute = Returns (credited self, true)).
Proof.
  intros Hr. destruct (reached_state _ _ _ _ Hr) as (Hl & Hq & Hn & Hc).
  destruct (nth_error l n) as [q|] eqn:E.
  2:{ apply nth_error_None in E. lia. }
  exists q. split; [exact Hc|]. split; [reflexivity|].
  split; [|split; [|split; [|split; [|split; [|split]]]]].
  - intros H. rewrite (check_answer_current _ _ _ Hc).
    apply String.eqb_eq in H. now rewrite H.
  - intros H. rewrite (check_answer_current _ _ _ Hc).
    destruct (String.eqb _ _) eqn:B; [|reflexivity].
    now apply String.eqb_eq in B.
  - apply lower_eq_ignore_case.
  - reflexivity.
  - repeat split.
  - intros H. rewrite !(check_answer_current _ _ _ Hc), H.
    repeat split; reflexivity.
  - intros H. rewrite (check_answer_current _ _ _ Hc), H.
    vm_compute. reflexivity.
Qed.

Lemma check_answer_ignores_case_witness :
  check_answer (shown (QuizBrain_init sample_questions) first_question) "tRuE"
  = Returns
      (credited (shown (QuizBrain_init sample_questions) first_question), true).
Proof.
  destruct (check_answer_ignores_case (html.unescape sample_html5)
              sample_questions 0
              (shown (QuizBrain_init sample_questions) first_question) "tRuE")
    as (q & Hc & Hn & Hyes & _).
  - apply (reached_call (html.unescape sample_html5) sample_questions 0
             (QuizBrain_init sample_questions) NextQuestion
             (shown (QuizBrain_init sample_questions) first_question)).
    + apply reached_init.
    + reflexivity.
  - apply Hyes. injection Hn as <-. reflexivity.
Defined.

(** C3. [still_has_questions()] answers yes exactly when the position is
    below the length of the question list. Hence a driver that starts
    from the initial state and calls [next_question] whenever the answer
    is yes hears yes exactly [len(question_list)] times and no ever after;
    and once the answer is no, no call other than [next_question] (which
    the driver no longer makes) turns it back to yes. *)
Theorem still_has_questions_exactly_len_times :
  (forall self,
      still_has_questions self = true <->
      question_number self < len (question_list self))
  /\ (forall unescape l k,
         poll unescape (List.length l + k) (QuizBrain_init l)
         = (repeat true (List.length l) ++ repeat false k)%list)
  /\ (forall unescape self c self',
         still_has_questions self = false ->
         is_next c = false ->
         call_method unescape self c = Returns self' ->
         still_has_questions self' = false).
Proof.
  split; [exact still_has_questions_lt|]. split.
  - intros unescape l k. apply poll_remaining; cbn; [lia|]. unfold len. lia.
  - intros unescape self c self' H Hc E. destruct c; cbn in *;
      try discriminate.
    + unfold check_answer in E.
      destruct (current_question self); [|discriminate].
      destruct (String.eqb _ _); injection E as <-; exact H.
    + now injection E as <-.
    + now injection E as <-.
    + now injection E as <-.
Qed.

(** C4. For every question list and every N from 1 to its length, N - 1
    calls of [next_question], each made after [still_has_questions()]
    said yes, return; whatever calls other than [next_question] were made
    in between, [still_has_questions()] says yes before the N-th call,
    which makes the N-th question of the list the current question, moves
    the position to N and returns "Q.N: " followed by the question's text
    with its HTML references decoded by [html.unescape] (which turns
    "&#039;" into an apostrophe and "&amp;" into "&"). *)
Theorem nth_call_returns_nth_question
    (unescape : string -> string) (l : list Question) (N : nat)
    (q : Question) :
  (1 <= N)%nat ->
  nth_error l (N - 1) = Some q ->
  (exists before,
      advance unescape (N - 1) (QuizBrain_init l) = Some (Returns before)
      /\ reached unescape l (N - 1) before)
  /\ (forall before,
         reached unescape l (N - 1) before ->
         still_has_questions before = true
         /\ next_question unescape before
            = Returns (shown before q,
                       "Q." ++ str_of_int (Z.of_nat N) ++ ": "
                       ++ unescape (text q))
         /\ current_question (shown before q) = Some q
         /\ question_number (shown before q) = Z.of_nat N
         /\ reached unescape l N (shown before q))
  /\ (forall html5, html.unescape html5 "It&#039;s" = "It's")
  /\ (forall html5,
         html5 "amp;" = Some "&" ->
         html.unescape html5 "Tom &amp; Jerry" = "Tom & Jerry").
Proof.
  intros HN Hq.
  assert (Hlen : (N - 1 < List.length l)%nat)
    by (apply nth_error_Some; congruence).
  split; [|split; [|split]].
  - destruct (advance_reaches unescape l (N - 1) 0 (QuizBrain_init l))
      as (before & Ha & Hr); [constructor | cbn; lia |].
    exists before. auto.
  - intros before Hr.
    destruct (reached_state _ _ _ _ Hr) as (Hl & Hn & _ & _).
    assert (H0 : 0 <= question_number before) by lia.
    assert (E : next_question unescape before
                = Returns (shown before q,
                           "Q." ++ str_of_int (Z.of_nat N) ++ ": "
                           ++ unescape (text q))).
    { rewrite (next_question_shown unescape before q H0).
      - replace (question_number before + 1) with (Z.of_nat N) by lia.
        reflexivity.
      - now rewrite Hl, Hn, Nat2Z.id. }
    split; [|split; [exact E|split; [reflexivity|split]]].
    + apply still_has_questions_lt. unfold len. rewrite Hl, Hn. lia.
    + cbn. lia.
    + replace N with (S (N - 1)) at 1 by lia.
      apply (reached_call unescape l (N - 1) before NextQuestion); [exact Hr|].
      cbn. now rewrite E.
  - exact unescape_numeric_apostrophe.
  - exact unescape_named_ampersand.
Qed.

Lemma nth_call_returns_nth_question_witness :
  next_question (html.unescape sample_html5)
    (shown (QuizBrain_init sample_questions) first_question)
  = Returns
      (shown (shown (QuizBrain_init sample_questions) first_question)
         second_question,
       "Q.2: It's always noon somewhere.").
Proof.
  destruct (nth_call_returns_nth_question (html.unescape sample_html5)
              sample_questions 2 second_question)
    as (_ & H & _).
  - lia.
  - reflexivity.
  - destruct (H (shown (QuizBrain_init sample_questions) first_question))
      as (_ & E & _).
    + apply (reached_call (html.unescape sample_html5) sample_questions 0
               (QuizBrain_init sample_questions) NextQuestion
               (shown (QuizBrain_init sample_questions) first_question)).
      * apply reached_init.
      * reflexivity.
    + exact E.
Defined.

(** C10. Every method writes its own attributes only: [check_answer] the
    score; [next_question] the position and the current question;
    [set_category] the category; [set_total_number_of_questions] the
    total. No sequence of calls changes the question list the quiz was
    built on, so no text and no answer of a question changes, and the
    current question is always one of the list. *)
Theorem methods_write_their_own_attributes :
  (forall self user_answer,
      match check_answer self user_answer with
      | Returns (self', _) => same_but_score self self'
      | Raises _ => True
      end)
  /\ (forall unescape self,
         match next_question unescape self with
         | Returns (self', _) => same_but_position self self'
         | Raises _ => True
         end)
  /\ (forall unescape self category',
         same_but_category self (set_category unescape self category'))
  /\ (forall self total,
         same_but_total self (set_total_number_of_questions self total))
  /\ (forall unescape self c,
         match call_method unescape self c with
         | Returns self' => question_list self' = question_list self
         | Raises _ => True
         end)
  /\ (forall unescape l n self,
         reached unescape l n self ->
         question_list self = l
         /\ forall q, current_question self = Some q -> In q l).
Proof.
  repeat apply conj.
  - intros self a. unfold check_answer.
    destruct (current_question self) eqn:E; [|exact I].
    destruct (String.eqb _ _); unfold same_but_score; cbn; auto 6.
  - intros unescape self. unfold next_question.
    destruct (getitem _ _); cbn; [|exact I].
    unfold same_but_position; cbn; auto.
  - intros. unfold same_but_category; cbn; auto 6.
  - intros. unfold same_but_total; cbn; auto 6.
  - intros unescape self c. destruct c; cbn; try reflexivity.
    + unfold next_question. destruct (getitem _ _); cbn; auto.
    + unfold check_answer. destruct (current_question self); cbn; [|exact I].
      destruct (String.eqb _ _); reflexivity.
  - intros unescape l n self Hr.
    destruct (reached_state _ _ _ _ Hr) as (Hl & _ & _ & Hc).
    split; [exact Hl|]. intros q Hq. rewrite Hq in Hc.
    destruct n; [discriminate|]. symmetry in Hc. now apply nth_error_In in Hc.
Qed.

(* ===================================================================== *)
(** * The quiz screen                                                     *)
(* ===================================================================== *)

(** C9. A quiz built as [main.py] builds it from three records whose
    correct answers are True, False and False, and played by pressing
    TRUE, FALSE, TRUE (each press followed by the one-second timer), ends
    with a score of 2; the final screen shows "Total Score: 2/3" next to
    the label "Score: 2", and both buttons are disabled. The same answers
    given straight to the quiz object, in the strict order next, check,
    next, check, next, check, leave the score at 2 and the position at
    3. *)
Theorem three_question_session
    (unescape : string -> string) (number_of_questions : Z)
    (c1 c2 c3 t1 t2 t3 : string) :
  (let* quiz0 :=
     main_quiz unescape number_of_questions
       (Some [mkRecord c1 t1 "True"; mkRecord c2 t2 "False";
              mkRecord c3 t3 "False"]) in
   let* ui0 := QuizInterface_init unescape quiz0 in
   mainloop unescape ui0
     [ClickTrue; TimerExpires; ClickFalse; TimerExpires;
      ClickTrue; TimerExpires])
  = Returns
      {| quiz :=
           {| question_number := 3;
              score := 2;
              question_list :=
                [mkQuestion t1 "True"; mkQuestion t2 "False";
                 mkQuestion t3 "False"];
              current_question := Some (mkQuestion t3 "False");
              total_questions := number_of_questions;
              category := unescape c1 |};
         question_number_label :=
           "Question 3/" ++ str_of_int number_of_questions;
         score_label := "Score: 2";
         category_label := unescape c1;
         canvas_bg := SECONDARY_COLOR;
         question_text := "Total Score: 2/3";
         question_text_font := (FONT_NAME, 25, "bold");
         button_true_state := "disabled";
         button_false_state := "disabled";
         pending := [] |}
  /\ strict unescape false
       (QuizBrain_init
          [mkQuestion t1 "True"; mkQuestion t2 "False"; mkQuestion t3 "False"])
       [NextQuestion; CheckAnswer "true"; NextQuestion; CheckAnswer "false";
        NextQuestion; CheckAnswer "true"] = true
  /\ List.map (fun s => (question_number s, score s))
       (states_after unescape
          (QuizBrain_init
             [mkQuestion t1 "True"; mkQuestion t2 "False";
              mkQuestion t3 "False"])
          [NextQuestion; CheckAnswer "true"; NextQuestion;
           CheckAnswer "false"; NextQuestion; CheckAnswer "true"])
     = [(1, 0); (1, 1); (2, 1); (2, 2); (3, 2); (3, 2)].
Proof.
  split; [|split]; vm_compute; reflexivity.
Qed.

(* ===================================================================== *)
(** * The question fetcher                                                *)
(* ===================================================================== *)

Section FetchFacts.

Variable service : nat -> response.
Variable category_code : Z.

Lemma extend_extend w a b x y :
  extend (extend w a x) b y = extend w (a + b) (x ++ y).
Proof.
  unfold extend; cbn. f_equal; [lia | now rewrite app_assoc].
Qed.

Lemma extend_nothing w : extend w 0 [] = w.
Proof.
  destruct w as [s j]. unfold extend; cbn.
  now rewrite Nat.add_0_r, app_nil_r.
Qed.

Lemma amounts_app a b : amounts (a ++ b) = (amounts a ++ amounts b)%list.
Proof.
  induction a as [|[]]; cbn; [reflexivity| |assumption|assumption].
  now rewrite IHa.
Qed.

Lemma pauses_app a b : pauses (a ++ b) = (pauses a ++ pauses b)%list.
Proof.
  induction a as [|[]]; cbn; [reflexivity|assumption| |assumption].
  now rewrite IHa.
Qed.

(** The loop: one pass through the body, then again or out. *)
Lemma fetch_unfold n w :
  fetch_against service n category_code w
  ≈ (x <- interp_state (handle service) (fetch_iteration category_code n) w ;;
     match snd x with
     | inl n' => fetch_against service n' category_code (fst x)
     | inr r => Ret (fst x, r)
     end).
Proof.
  unfold fetch_against, fetch_question_data.
  rewrite unfold_iter at 1. rewrite interp_state_bind.
  apply eutt_eq_bind. intros [w' [n' | r]]; cbn.
  - rewrite interp_state_tau, tau_eutt. reflexivity.
  - rewrite interp_state_ret. reflexivity.
Qed.

Ltac request Hn Hs :=
  unfold fetch_iteration;
  apply Z.ltb_lt in Hn; rewrite Hn;
  rewrite interp_state_bind, interp_state_trigger; cbn;
  rewrite bind_ret_l; cbn; rewrite Hs; cbn.

Ltac effect :=
  rewrite interp_state_bind, interp_state_trigger; cbn;
  rewrite bind_ret_l; cbn.

Ltac same_world :=
  unfold extend, record_entry; cbn; rewrite <- ?app_assoc; cbn;
  rewrite ?Nat.add_1_r; reflexivity.

Lemma iteration_exhausted n w :
  n <= 0 ->
  interp_state (handle service) (fetch_iteration category_code n) w
  ≈ Ret (w, inr (Returns None)).
Proof.
  intros Hn. unfold fetch_iteration.
  replace (0 <? n) with false by (symmetry; apply Z.ltb_ge; lia).
  rewrite interp_state_ret. reflexivity.
Qed.

Lemma iteration_success n w results :
  0 < n -> service (served w) = Json 0 results ->
  interp_state (handle service) (fetch_iteration category_code n) w
  ≈ Ret (extend w 1 [Requested n category_code],
         inr (Returns (Some results))).
Proof.
  intros Hn Hs. request Hn Hs. rewrite interp_state_ret. same_world.
Qed.

Lemma iteration_invalid n w code results :
  0 < n -> service (served w) = Json code results -> code <> 0 ->
  interp_state (handle service) (fetch_iteration category_code n) w
  ≈ Ret (extend w 1 (invalid_attempt n category_code code), inl (n - 1)).
Proof.
  intros Hn Hs Hc. request Hn Hs.
  replace (code =? 0) with false by (symmetry; now apply Z.eqb_neq).
  effect. effect. effect. rewrite interp_state_ret. same_world.
Qed.

Lemma iteration_rate_limited n w :
  0 < n -> service (served w) = HTTPError 429 ->
  interp_state (handle service) (fetch_iteration category_code n) w
  ≈ Ret (extend w 1 (rate_limited_attempt n category_code), inl n).
Proof.
  intros Hn Hs. request Hn Hs. effect. effect.
  rewrite interp_state_ret. same_world.
Qed.

Lemma iteration_http_error n w status :
  0 < n -> service (served w) = HTTPError status -> status <> 429 ->
  interp_state (handle service) (fetch_iteration category_code n) w
  ≈ Ret (extend w 1 [Requested n category_code;
                     Printed (RequestFailed status)],
         inr (Returns None)).
Proof.
  intros Hn Hs Hc. request Hn Hs.
  replace (status =? 429) with false by (symmetry; now apply Z.eqb_neq).
  effect. rewrite interp_state_ret. same_world.
Qed.

Lemma iteration_failure n w e :
  0 < n -> service (served w) = Failure e ->
  interp_state (handle service) (fetch_iteration category_code n) w
  ≈ Ret (extend w 1 [Requested n category_code], inr (Raises e)).
Proof.
  intros Hn Hs. request Hn Hs. rewrite interp_state_ret. same_world.
Qed.

End FetchFacts.

Section FetchLoop.

Variable service : nat -> response.
Variable category_code : Z.

Lemma fetch_exhausted n w :
  n <= 0 -> fetch_against service n category_code w ≈ Ret (w, Returns None).
Proof.
  intros Hn. rewrite fetch_unfold, iteration_exhausted by assumption.
  rewrite bind_ret_l. reflexivity.
Qed.

Lemma fetch_success n w results :
  0 < n -> service (served w) = Json 0 results ->
  fetch_against service n category_code w
  ≈ Ret (extend w 1 [Requested n category_code], Returns (Some results)).
Proof.
  intros Hn Hs. rewrite fetch_unfold, iteration_success by eassumption.
  rewrite bind_ret_l. reflexivity.
Qed.

Lemma fetch_invalid n w code results :
  0 < n -> service (served w) = Json code results -> code <> 0 ->
  fetch_against service n category_code w
  ≈ fetch_against service (n - 1) category_code
      (extend w 1 (invalid_attempt n category_code code)).
Proof.
  intros Hn Hs Hc.
  rewrite fetch_unfold, iteration_invalid by eassumption.
  rewrite bind_ret_l. reflexivity.
Qed.

Lemma fetch_rate_limited n w :
  0 < n -> service (served w) = HTTPError 429 ->
  fetch_against service n category_code w
  ≈ fetch_against service n category_code
      (extend w 1 (rate_limited_attempt n category_code)).
Proof.
  intros Hn Hs.
  rewrite fetch_unfold, iteration_rate_limited by eassumption.
  rewrite bind_ret_l. reflexivity.
Qed.

Lemma fetch_http_error n w status :
  0 < n -> service (served w) = HTTPError status -> status <> 429 ->
  fetch_against service n category_code w
  ≈ Ret (extend w 1 [Requested n category_code;
                     Printed (RequestFailed status)],
         Returns None).
Proof.
  intros Hn Hs Hc.
  rewrite fetch_unfold, iteration_http_error by eassumption.
  rewrite bind_ret_l. reflexivity.
Qed.

(** [k] replies in a row without results: [k] requests, each for one
    question fewer, and no pause. *)
Lemma fetch_degrades k : forall n w,
  Z.of_nat k <= n ->
  (forall i, (i < k)%nat -> invalid (service (served w + i))) ->
  exists w',
    fetch_against service n category_code w
    ≈ fetch_against service (n - Z.of_nat k) category_code w'
    /\ served w' = (served w + k)%nat
    /\ amounts (journal w') = (amounts (journal w) ++ countdown n k)%list
    /\ pauses (journal w') = pauses (journal w).
Proof.
  induction k as [|k IH]; intros n w Hk Hall.
  - exists w. cbn [countdown Z.of_nat].
    rewrite Z.sub_0_r, Nat.add_0_r, app_nil_r.
    split; [reflexivity|]. split; [reflexivity|]. split; reflexivity.
  - destruct (Hall 0%nat) as (code & results & Hs & Hc); [lia|].
    rewrite Nat.add_0_r in Hs.
    destruct (IH (n - 1)
                (extend w 1 (invalid_attempt n category_code code)))
      as (w' & He & Hserved & Ha & Hp).
    + lia.
    + intros i Hi. cbn. replace (served w + 1 + i)%nat
        with (served w + S i)%nat by lia. apply Hall. lia.
    + exists w'. split; [|split; [|split]].
      * rewrite (fetch_invalid n w code results) by (assumption || lia).
        rewrite He.
        replace (n - 1 - Z.of_nat k) with (n - Z.of_nat (S k)) by lia.
        reflexivity.
      * rewrite Hserved. cbn. lia.
      * rewrite Ha. cbn. rewrite amounts_app. cbn.
        now rewrite <- app_assoc.
      * rewrite Hp. cbn. rewrite pauses_app. cbn. now rewrite app_nil_r.
Qed.

(** [k] rate-limited replies in a row: [k] requests for the same amount,
    each followed by a pause of 2 seconds, and the loop goes on. *)
Lemma fetch_waits k : forall n w,
  0 < n ->
  (forall i, (i < k)%nat -> service (served w + i) = HTTPError 429) ->
  fetch_against service n category_code w
  ≈ fetch_against service n category_code
      (extend w k (rate_limited_attempts k n category_code)).
Proof.
  induction k as [|k IH]; intros n w Hn Hall.
  - cbn [rate_limited_attempts]. now rewrite extend_nothing.
  - assert (Hs : service (served w) = HTTPError 429).
    { rewrite <- (Nat.add_0_r (served w)). apply Hall. lia. }
    cbn [rate_limited_attempts]. rewrite (fetch_rate_limited n w Hn Hs).
    rewrite IH; [|assumption|].
    + rewrite extend_extend. reflexivity.
    + intros i Hi. cbn. replace (served w + 1 + i)%nat
        with (served w + S i)%nat by lia. apply Hall. lia.
Qed.

(** Replies without results and rate-limited replies in any order, then
    a valid reply: the valid reply ends the run, provided the amount has
    not been used up before. *)
Lemma fetch_reaches_valid k : forall n w results,
  (forall i, (i < k)%nat ->
             (is_invalid (service (served w + i))
              || is_rate_limited (service (served w + i)))%bool = true) ->
  Z.of_nat (invalid_replies service (served w) k) < n ->
  service (served w + k) = Json 0 results ->
  exists w',
    fetch_against service n category_code w
    ≈ Ret (w', Returns (Some results))
    /\ served w' = S (served w + k).
Proof.
  induction k as [|k IH]; intros n w results Hall Hn Hs.
  - rewrite Nat.add_0_r in Hs. cbn in Hn.
    exists (extend w 1 [Requested n category_code]). split.
    + now apply fetch_success.
    + cbn. lia.
  - pose proof (Hall 0%nat ltac:(lia)) as H0. rewrite Nat.add_0_r in H0.
    cbn [invalid_replies] in Hn.
    assert (Hshift : forall w1, served w1 = S (served w) ->
              forall i, (i < k)%nat ->
                (is_invalid (service (served w1 + i))
                 || is_rate_limited (service (served w1 + i)))%bool = true).
    { intros w1 E i Hi. rewrite E.
      replace (S (served w) + i)%nat with (served w + S i)%nat by lia.
      apply Hall. lia. }
    destruct (service (served w)) as [code rs|status|e] eqn:E0;
      cbn in H0, Hn; try discriminate.
    + rewrite orb_false_r in H0. apply negb_true_iff, Z.eqb_neq in H0.
      replace (negb (code =? 0)) with true in Hn
        by (symmetry; now apply negb_true_iff, Z.eqb_neq).
      destruct (IH (n - 1)
                  (extend w 1 (invalid_attempt n category_code code)) results)
        as (w' & He & Hserved).
      * apply Hshift. cbn. lia.
      * cbn [extend served]. rewrite Nat.add_1_r. lia.
      * cbn [extend served].
        now replace (served w + 1 + k)%nat with (served w + S k)%nat by lia.
      * exists w'. split.
        -- rewrite (fetch_invalid n w code rs) by (assumption || lia).
           exact He.
        -- rewrite Hserved. cbn. lia.
    + apply Z.eqb_eq in H0. subst status.
      destruct (IH n (extend w 1 (rate_limited_attempt n category_code))
                  results)
        as (w' & He & Hserved).
      * apply Hshift. cbn. lia.
      * cbn [extend served]. rewrite Nat.add_1_r. lia.
      * cbn [extend served].
        now replace (served w + 1 + k)%nat with (served w + S k)%nat by lia.
      * exists w'. split.
        -- rewrite (fetch_rate_limited n w) by (assumption || lia).
           exact He.
        -- rewrite Hserved. cbn. lia.
Qed.

(** Against a service that limits the rate without end the function
    never returns. *)
Lemma fetch_never_returns n w :
  0 < n -> (forall i, service i = HTTPError 429) ->
  forall x, ~ (x ∈ fetch_against service n category_code w).
Proof.
  intros Hn Hall x Hx.
  unfold fetch_against, fetch_question_data in Hx.
  eapply (Leaf_interp_state_iter_inv (handle service)
            (fetch_iteration category_code)
            (fun _ => True) (fun i => 0 < i) (fun _ => False)) in Hx; auto.
  - destruct x as [w' r]. destruct Hx as [_ H]. exact H.
  - intros s i _ Hi sx Hsx.
    rewrite iteration_rate_limited in Hsx by auto.
    apply Leaf_Ret_inv in Hsx. subst sx. split; cbn; auto.
Qed.

Lemma amounts_rate_limited k n :
  amounts (rate_limited_attempts k n category_code) = repeat n k.
Proof. induction k; cbn; [reflexivity | now rewrite IHk]. Qed.

Lemma pauses_rate_limited k n :
  pauses (rate_limited_attempts k n category_code) = repeat 2 k.
Proof. induction k; cbn; [reflexivity | now rewrite IHk]. Qed.

End FetchLoop.

(** ** Counting down *)

Lemma countdown_snoc k : forall n,
  (countdown n k ++ [n - Z.of_nat k])%list = countdown n (S k).
Proof.
  induction k as [|k IH]; intros n.
  - cbn [countdown app Z.of_nat]. now rewrite Z.sub_0_r.
  - change (countdown n (S k)) with (n :: countdown (n - 1) k).
    change (countdown n (S (S k))) with (n :: countdown (n - 1) (S k)).
    rewrite <- IH, <- app_comm_cons.
    replace (n - 1 - Z.of_nat k) with (n - Z.of_nat (S k)) by lia.
    reflexivity.
Qed.

Lemma countdown_nth k : forall n i,
  (i < k)%nat -> nth_error (countdown n k) i = Some (n - Z.of_nat i).
Proof.
  induction k as [|k IH]; intros n i Hi; [lia|].
  destruct i as [|i].
  - cbn [countdown nth_error Z.of_nat]. now rewrite Z.sub_0_r.
  - cbn [countdown nth_error]. rewrite IH by lia. f_equal. lia.
Qed.

(* ===================================================================== *)
(** * The claims about the question fetcher                               *)
(* ===================================================================== *)

(** C5. Whatever was requested and answered before, when the reply to a
    request parses and carries [response_code] 0, the function returns
    that reply's results at once: the journal gains this one request and
    nothing else. In particular, after any number of replies without
    results, and after replies without results and rate-limited replies
    in any order, the first valid reply ends the run (as long as the
    amount is still positive when it arrives); against the replies
    invalid, invalid, valid, starting at 5, the function asks for 5, 4
    and 3 questions, returns the three records of the third reply, and
    has made three requests. *)
Theorem fetch_returns_first_valid_reply :
  (forall (service : nat -> response) category_code n w results,
      0 < n ->
      service (served w) = Json 0 results ->
      fetch_against service n category_code w
      ≈ Ret (extend w 1 [Requested n category_code],
             Returns (Some results)))
  /\ (forall (service : nat -> response) category_code n w k results,
         Z.of_nat k < n ->
         (forall i, (i < k)%nat -> invalid (service (served w + i)%nat)) ->
         service (served w + k)%nat = Json 0 results ->
         exists w',
           fetch_against service n category_code w
           ≈ Ret (w', Returns (Some results))
           /\ served w' = S (served w + k)
           /\ amounts (journal w')
              = (amounts (journal w) ++ countdown n (S k))%list
           /\ pauses (journal w') = pauses (journal w))
  /\ (forall (service : nat -> response) category_code n w k results,
         (forall i, (i < k)%nat ->
                    (is_invalid (service (served w + i)%nat)
                     || is_rate_limited (service (served w + i)%nat))%bool
                    = true) ->
         Z.of_nat (invalid_replies service (served w) k) < n ->
         service (served w + k)%nat = Json 0 results ->
         exists w',
           fetch_against service n category_code w
           ≈ Ret (w', Returns (Some results))
           /\ served w' = S (served w + k))
  /\ (forall category_code,
         exists w',
           fetch_against degrading_service 5 category_code fresh
           ≈ Ret (w', Returns (Some sample_data))
           /\ List.length sample_data = 3%nat
           /\ served w' = 3%nat
           /\ amounts (journal w') = [5; 4; 3]
           /\ pauses (journal w') = []).
Proof.
  assert (General :
    forall (service : nat -> response) category_code n w k results,
      Z.of_nat k < n ->
      (forall i, (i < k)%nat -> invalid (service (served w + i)%nat)) ->
      service (served w + k)%nat = Json 0 results ->
      exists w',
        fetch_against service n category_code w
        ≈ Ret (w', Returns (Some results))
        /\ served w' = S (served w + k)
        /\ amounts (journal w')
           = (amounts (journal w) ++ countdown n (S k))%list
        /\ pauses (journal w') = pauses (journal w)).
  { intros service c n w k results Hk Hall Hs.
    destruct (fetch_degrades service c k n w) as (w1 & He & Hserved & Ha & Hp);
      [lia | exact Hall |].
    rewrite <- Hserved in Hs.
    exists (extend w1 1 [Requested (n - Z.of_nat k) c]).
    split; [|split; [|split]].
    - rewrite He. apply fetch_success; [lia | exact Hs].
    - cbn. lia.
    - cbn [extend journal]. rewrite amounts_app, Ha, <- app_assoc.
      f_equal. apply countdown_snoc.
    - cbn. rewrite pauses_app, Hp. cbn. now rewrite app_nil_r. }
  split; [|split; [|split]].
  - intros. now apply fetch_success.
  - exact General.
  - intros. now apply fetch_reaches_valid.
  - intros c.
    destruct (General degrading_service c 5 fresh 2%nat sample_data)
      as (w' & He & Hserved & Ha & Hp).
    + lia.
    + intros [|[|i]] Hi; [| |lia]; exists 1, []; split; (reflexivity || lia).
    + reflexivity.
    + exists w'. auto.
Qed.

(** C6. For a positive count, when every reply parses but carries a
    nonzero [response_code], the function asks for count, count - 1, ...,
    1 questions, pauses nowhere, and after exactly count requests returns
    [None]. *)
Theorem fetch_gives_up_after_count_requests
    (service : nat -> response) (category_code n : Z) (w : world) :
  0 < n ->
  (forall i, (i < Z.to_nat n)%nat -> invalid (service (served w + i)%nat)) ->
  exists w',
    fetch_against service n category_code w ≈ Ret (w', Returns None)
    /\ served w' = (served w + Z.to_nat n)%nat
    /\ amounts (journal w')
       = (amounts (journal w) ++ countdown n (Z.to_nat n))%list
    /\ pauses (journal w') = pauses (journal w)
    /\ (forall i, (i < Z.to_nat n)%nat ->
                  nth_error (countdown n (Z.to_nat n)) i
                  = Some (n - Z.of_nat i)).
Proof.
  intros Hn Hall.
  destruct (fetch_degrades service category_code (Z.to_nat n) n w)
    as (w' & He & Hserved & Ha & Hp); [lia | exact Hall |].
  exists w'. split; [|split; [|split; [|split]]]; try assumption.
  - rewrite He. apply fetch_exhausted. lia.
  - apply countdown_nth.
Qed.

Lemma fetch_gives_up_after_count_requests_witness :
  exists w',
    fetch_against empty_service 3 9 fresh ≈ Ret (w', Returns None)
    /\ served w' = 3%nat
    /\ amounts (journal w') = [3; 2; 1]
    /\ pauses (journal w') = [].
Proof.
  destruct (fetch_gives_up_after_count_requests empty_service 9 3 fresh)
    as (w' & He & Hserved & Ha & Hp & _).
  - lia.
  - intros i _. exists 1, []. split; [reflexivity | lia].
  - exists w'. auto.
Defined.

(** C7. When a request ends in an HTTP error status other than 429, the
    function makes no further request: it prints the failure and returns
    [None]; it does not raise. *)
Theorem fetch_aborts_on_http_error
    (service : nat -> response) (category_code n : Z) (w : world)
    (status : Z) :
  0 < n ->
  service (served w) = HTTPError status ->
  status <> 429 ->
  fetch_against service n category_code w
  ≈ Ret (extend w 1 [Requested n category_code;
                     Printed (RequestFailed status)],
         Returns None).
Proof. intros. now apply fetch_http_error. Qed.

Lemma fetch_aborts_on_http_error_witness :
  fetch_against broken_service 10 9 fresh
  ≈ Ret (extend fresh 1 [Requested 10 9; Printed (RequestFailed 503)],
         Returns None).
Proof.
  apply (fetch_aborts_on_http_error broken_service 9 10 fresh 503).
  - lia.
  - reflexivity.
  - discriminate.
Defined.

(** C8. When a request is answered with status 429, the function prints a
    notice, sleeps 2 seconds and asks again for the same amount. Nothing
    bounds these retries: after any number [k] of such replies in a row
    it has made [k] requests for the same amount and [k] pauses of 2
    seconds and the loop is where it started; a valid reply then ends the
    run with its results, and against a service that answers 429 for ever
    the function never returns. *)
Theorem fetch_retries_rate_limit_without_bound
    (service : nat -> response) (category_code n : Z) (w : world) :
  0 < n ->
  (service (served w) = HTTPError 429 ->
   fetch_against service n category_code w
   ≈ fetch_against service n category_code
       (extend w 1 [Requested n category_code; Printed TooManyRequests;
                    Slept 2]))
  /\ (forall k,
         (forall i, (i < k)%nat ->
                    service (served w + i)%nat = HTTPError 429) ->
         fetch_against service n category_code w
         ≈ fetch_against service n category_code
             (extend w k (rate_limited_attempts k n category_code))
         /\ amounts (rate_limited_attempts k n category_code) = repeat n k
         /\ pauses (rate_limited_attempts k n category_code) = repeat 2 k)
  /\ (forall k results,
         (forall i, (i < k)%nat ->
                    service (served w + i)%nat = HTTPError 429) ->
         service (served w + k)%nat = Json 0 results ->
         fetch_against service n category_code w
         ≈ Ret (extend w (S k)
                  (rate_limited_attempts k n category_code
                   ++ [Requested n category_code]),
                Returns (Some results)))
  /\ ((forall i, service i = HTTPError 429) ->
      forall x,
        ~ (x ∈ fetch_against service n category_code w)
        /\ ~ (fetch_against service n category_code w ≈ Ret x)).
Proof.
  intros Hn. split; [|split; [|split]].
  - intros Hs. now apply fetch_rate_limited.
  - intros k Hall. split; [now apply fetch_waits|].
    split; [apply amounts_rate_limited | apply pauses_rate_limited].
  - intros k results Hall Hs.
    rewrite (fetch_waits service category_code k n w Hn Hall).
    rewrite fetch_success by (assumption || exact Hs).
    rewrite extend_extend. now rewrite Nat.add_1_r.
  - intros Hall x.
    assert (H : ~ (x ∈ fetch_against service n category_code w))
      by now apply fetch_never_returns.
    split; [exact H|]. intros E. apply H. rewrite E. apply Leaf_Ret.
Qed.

Lemma fetch_retries_rate_limit_without_bound_witness :
  fetch_against busy_service 5 9 fresh
  ≈ fetch_against busy_service 5 9
      (extend fresh 3 (rate_limited_attempts 3 5 9)).
Proof.
  destruct (fetch_retries_rate_limit_without_bound busy_service 9 5 fresh)
    as (_ & H & _).
  - lia.
  - destruct (H 3%nat) as [E _].
    + intros i _. reflexivity.
    + exact E.
Defined.

(* ===================================================================== *)
(** * Further properties of the quiz object                               *)
(* ===================================================================== *)

Section GameFacts.

Variable unescape : string -> string.

Lemma getitem_past_the_end {A : Type} (l : list A) (i : Z) :
  len l <= i -> getitem l i = Raises IndexError.
Proof.
  intros H. unfold getitem. unfold len in *.
  destruct (i <? 0) eqn:E; [apply Z.ltb_lt in E; lia|].
  replace (i <? Z.of_nat (List.length l)) with false
    by (symmetry; apply Z.ltb_ge; lia).
  now rewrite andb_false_r.
Qed.

Lemma play_from answers : forall l k self,
  question_list self = l ->
  question_number self = Z.of_nat k ->
  (k + List.length answers <= List.length l)%nat ->
  exists self',
    call_all unescape self (play answers) = Returns self'
    /\ question_list self' = l
    /\ question_number self' = Z.of_nat (k + List.length answers)
    /\ score self' = score self + right_answers answers (skipn k l)
    /\ total_questions self' = total_questions self
    /\ category self' = category self.
Proof.
  induction answers as [|a answers IH]; intros l k self Hl Hq Hk.
  - exists self. cbn. rewrite Nat.add_0_r.
    repeat split; try assumption. destruct (skipn k l); lia.
  - cbn [List.length] in Hk.
    destruct (nth_error l k) as [q|] eqn:E.
    2:{ apply nth_error_None in E. lia. }
    assert (H0 : 0 <= question_number self) by lia.
    assert (Hn : nth_error (question_list self)
                   (Z.to_nat (question_number self)) = Some q)
      by now rewrite Hl, Hq, Nat2Z.id.
    cbn [play call_all call_method].
    rewrite (next_question_shown unescape self q H0 Hn). cbn [bind].
    rewrite (check_answer_current (shown self q) q a eq_refl).
    assert (Hs : skipn k l = q :: skipn (S k) l).
    { clear - E. revert l E. induction k as [|k IHk]; intros [|x l] E;
        cbn in *; try discriminate.
      - now injection E as ->.
      - now apply IHk. }
    rewrite Hs. cbn [right_answers]. fold (right_answer a q).
    destruct (right_answer a q); cbn [bind].
    + destruct (IH l (S k) (credited (shown self q))) as (self' & E' & R);
        [exact Hl | cbn; lia | lia |].
      exists self'. split; [exact E'|].
      destruct R as (R1 & R2 & R3 & R4 & R5).
      split; [exact R1|]. split; [rewrite R2; cbn [List.length]; lia|].
      split; [rewrite R3; cbn [score shown credited]; lia|].
      split; [exact R4 | exact R5].
    + destruct (IH l (S k) (shown self q)) as (self' & E' & R);
        [exact Hl | cbn; lia | lia |].
      exists self'. split; [exact E'|].
      destruct R as (R1 & R2 & R3 & R4 & R5).
      split; [exact R1|]. split; [rewrite R2; cbn [List.length]; lia|].
      split; [rewrite R3; cbn [score shown credited]; lia|].
      split; [exact R4 | exact R5].
Qed.

Lemma strict_play answers : forall l k u self,
  question_list self = l ->
  question_number self = Z.of_nat k ->
  (k + List.length answers <= List.length l)%nat ->
  strict unescape u self (play answers) = true.
Proof.
  induction answers as [|a answers IH]; intros l k u self Hl Hq Hk;
    [reflexivity|].
  cbn [List.length] in Hk.
  destruct (nth_error l k) as [q|] eqn:E.
  2:{ apply nth_error_None in E. lia. }
  assert (H0 : 0 <= question_number self) by lia.
  assert (Hn : nth_error (question_list self)
                 (Z.to_nat (question_number self)) = Some q)
    by now rewrite Hl, Hq, Nat2Z.id.
  assert (Hs : still_has_questions self = true).
  { apply still_has_questions_lt. unfold len. rewrite Hl, Hq. lia. }
  cbn [play strict admissible call_method unanswered_after].
  rewrite Hs, (next_question_shown unescape self q H0 Hn).
  cbn [bind andb strict admissible call_method unanswered_after].
  rewrite (check_answer_current (shown self q) q a eq_refl).
  destruct (String.eqb _ _); cbn [bind];
    apply (IH l (S k)); cbn; (assumption || lia).
Qed.

End GameFacts.

(** X1. Once [still_has_questions()] says no, a further [next_question]
    raises [IndexError]; this is the case exactly after as many
    [next_question] calls as the list has questions. *)
Theorem next_question_past_the_end
    (unescape : string -> string) (l : list Question) (n : nat)
    (self : QuizBrain) :
  reached unescape l n self ->
  still_has_questions self = false ->
  next_question unescape self = Raises IndexError /\ n = List.length l.
Proof.
  intros Hr Hs. destruct (reached_state _ _ _ _ Hr) as (Hl & Hq & Hn & _).
  unfold still_has_questions in Hs. apply Z.ltb_ge in Hs.
  split.
  - unfold next_question. now rewrite getitem_past_the_end.
  - unfold len in Hs. rewrite Hl, Hq in Hs. lia.
Qed.

Lemma next_question_past_the_end_witness :
  next_question (html.unescape sample_html5) (QuizBrain_init [])
  = Raises IndexError
  /\ O = @List.length Question [].
Proof.
  apply (next_question_past_the_end (html.unescape sample_html5) [] 0
           (QuizBrain_init [])).
  - apply reached_init.
  - reflexivity.
Defined.

(** X2. Before the first [next_question], whatever other calls were made,
    [check_answer] raises [AttributeError]: there is no current
    question. *)
Theorem check_answer_before_first_question
    (unescape : string -> string) (l : list Question) (self : QuizBrain)
    (user_answer : string) :
  reached unescape l 0 self ->
  check_answer self user_answer = Raises AttributeError.
Proof.
  intros Hr. destruct (reached_state _ _ _ _ Hr) as (_ & _ & _ & Hc).
  unfold check_answer. now rewrite Hc.
Qed.

Lemma check_answer_before_first_question_witness :
  check_answer
    (set_category (html.unescape sample_html5)
       (QuizBrain_init sample_questions) "Science &amp; Nature")
    "true"
  = Raises AttributeError.
Proof.
  apply (check_answer_before_first_question (html.unescape sample_html5)
           sample_questions).
  apply (reached_call (html.unescape sample_html5) sample_questions 0
           (QuizBrain_init sample_questions)
           (SetCategory "Science &amp; Nature")).
  - apply reached_init.
  - reflexivity.
Defined.

(** X3. Playing the quiz in the strict order (fetch a question, answer
    it) with at most as many answers as there are questions never
    raises; afterwards the position is the number of answers given and
    the score is the number of answers whose lowercase form is that of
    their question's stored answer; among answers that are all ASCII
    these are the answers equal to the stored one up to case. *)
Theorem score_counts_right_answers
    (unescape : string -> string) (l : list Question)
    (answers : list string) :
  (List.length answers <= List.length l)%nat ->
  exists self,
    call_all unescape (QuizBrain_init l) (play answers) = Returns self
    /\ strict unescape false (QuizBrain_init l) (play answers) = true
    /\ question_number self = len answers
    /\ score self = right_answers answers l
    /\ (forall a q, right_answer a q = true <-> lower a = lower (answer q))
    /\ (forall a q,
          PyUnicode_IS_ASCII a = true ->
          PyUnicode_IS_ASCII (answer q) = true ->
          (right_answer a q = true <-> eq_ignore_case a (answer q))).
Proof.
  intros H.
  destruct (play_from unescape answers l 0 (QuizBrain_init l))
    as (self & E & _ & Hq & Hs & _); [reflexivity | reflexivity | lia |].
  exists self. split; [exact E|]. split; [|split; [|split; [|split]]].
  - now apply (strict_play unescape answers l 0%nat).
  - exact Hq.
  - exact Hs.
  - intros. apply String.eqb_eq.
  - intros a q Ha Hq'. unfold right_answer. rewrite String.eqb_eq.
    now apply lower_eq_ignore_case.
Qed.

Lemma score_counts_right_answers_witness :
  exists self,
    call_all (html.unescape sample_html5) (QuizBrain_init sample_questions)
      (play ["TRUE"; "false"; "true"]) = Returns self
    /\ question_number self = 3
    /\ score self = 2.
Proof.
  destruct (score_counts_right_answers (html.unescape sample_html5)
              sample_questions ["TRUE"; "false"; "true"])
    as (self & E & _ & Hq & Hs & _).
  - cbn. lia.
  - exists self. auto.
Defined.

(* ===================================================================== *)
(** * Further properties of the quiz screen                               *)
(* ===================================================================== *)

Section ScreenFacts.

Variable unescape : string -> string.

Lemma skipn_nth {A : Type} (l : list A) : forall k a,
  nth_error l k = Some a -> skipn k l = a :: skipn (S k) l.
Proof.
  induction l as [|x l IH]; intros [|k] a E; cbn in *; try discriminate.
  - now injection E as ->.
  - now apply IH.
Qed.

(** A click while a question is shown: the answer is checked, the card is
    coloured and one timer is set; the buttons stay as they are. *)
Lemma click_while_showing l k q self (b : bool) :
  showing l k q self ->
  dispatch unescape self (if b then ClickTrue else ClickFalse)
  = Returns
      (give_feedback
         (with_quiz self
            (if right_answer (button_answer b) q
             then credited (quiz self) else quiz self))
         (right_answer (button_answer b) q)).
Proof.
  intros (Hl & Hq & Hn & Hc & Ht & Hf & Hp).
  destruct b; cbn [dispatch]; [rewrite Ht | rewrite Hf]; cbn [String.eqb];
    unfold true_pressed, false_pressed;
    rewrite (check_answer_current _ _ _ Hc); unfold right_answer, button_answer;
    destruct (String.eqb _ _); reflexivity.
Qed.

(** The screen after the first call of [get_next_question] that finds no
    question left. *)
Lemma get_next_question_finished self :
  still_has_questions (quiz self) = false ->
  pending self = [] ->
  exists self',
    get_next_question unescape self = Returns self'
    /\ finished self' /\ quiz self' = quiz self.
Proof.
  intros Hs Hp. unfold get_next_question. rewrite Hs.
  eexists. split; [reflexivity|]. unfold finished. cbn -[str_of_int].
  repeat split; try reflexivity. exact Hp.
Qed.

Lemma get_next_question_shows l k q self :
  question_list (quiz self) = l ->
  question_number (quiz self) = Z.of_nat k ->
  nth_error l k = Some q ->
  button_true_state self = "normal" ->
  button_false_state self = "normal" ->
  pending self = [] ->
  exists self',
    get_next_question unescape self = Returns self'
    /\ showing l k q self'
    /\ score (quiz self') = score (quiz self)
    /\ question_text self'
       = "Q." ++ str_of_int (Z.of_nat (S k)) ++ ": " ++ unescape (text q)
    /\ question_number_label self'
       = "Question " ++ str_of_int (Z.of_nat (S k)) ++ "/"
         ++ str_of_int (total_questions (quiz self))
    /\ score_label self' = "Score: " ++ str_of_int (score (quiz self)).
Proof.
  intros Hl Hq Hn Ht Hf Hp.
  assert (Hlt : (k < List.length l)%nat) by (apply nth_error_Some; congruence).
  assert (Hs : still_has_questions (quiz self) = true).
  { apply still_has_questions_lt. unfold len. rewrite Hl, Hq. lia. }
  assert (H0 : 0 <= question_number (quiz self)) by lia.
  assert (Hn' : nth_error (question_list (quiz self))
                  (Z.to_nat (question_number (quiz self))) = Some q)
    by now rewrite Hl, Hq, Nat2Z.id.
  unfold get_next_question. rewrite Hs.
  rewrite (next_question_shown unescape (quiz self) q H0 Hn'). cbn [bind].
  eexists. split; [reflexivity|].
  replace (question_number (quiz self) + 1) with (Z.of_nat (S k)) by lia.
  unfold showing. cbn -[str_of_int Z.of_nat].
  repeat split; try assumption; try reflexivity. lia.
Qed.

Lemma showing_in_range l k q self :
  showing l k q self -> (k < List.length l)%nat.
Proof. intros (_ & _ & Hn & _). apply nth_error_Some. congruence. Qed.

(** From a shown question to the final screen, one click and one timer
    per question left. *)
Lemma session_from l clicks : forall k q self,
  showing l k q self ->
  List.length clicks = (List.length l - k)%nat ->
  exists self',
    mainloop unescape self (session clicks) = Returns self'
    /\ finished self'
    /\ score (quiz self')
       = score (quiz self)
         + right_answers (List.map button_answer clicks) (skipn k l)
    /\ question_number (quiz self') = len l
    /\ question_list (quiz self') = l.
Proof.
  induction clicks as [|b clicks IH]; intros k q self Hsh Hlen.
  - apply showing_in_range in Hsh. cbn in Hlen. lia.
  - pose proof (showing_in_range _ _ _ _ Hsh) as Hk.
    cbn [session mainloop].
    rewrite (click_while_showing l k q self b Hsh). cbn [bind].
    destruct Hsh as (Hl & Hq & Hn & Hc & Ht & Hf & Hp).
    rewrite (skipn_nth l k q Hn). cbn [List.map right_answers].
    set (r := right_answer (button_answer b) q).
    set (quiz1 := if r then credited (quiz self) else quiz self).
    assert (Hl1 : question_list quiz1 = l) by (subst quiz1; now destruct r).
    assert (Hq1 : question_number quiz1 = Z.of_nat (S k))
      by (subst quiz1; now destruct r).
    assert (Hs1 : score quiz1 = score (quiz self) + (if r then 1 else 0))
      by (subst quiz1; destruct r; cbn; lia).
    set (self1 := give_feedback (with_quiz self quiz1) r).
    assert (D : dispatch unescape self1 TimerExpires
                = get_next_question unescape (drop_pending self1)).
    { subst self1. cbn [dispatch give_feedback with_quiz pending]. rewrite Hp.
      reflexivity. }
    rewrite D. clear D.
    set (self2 := drop_pending self1).
    assert (Q2 : quiz self2 = quiz1) by reflexivity.
    assert (T2 : button_true_state self2 = "normal") by exact Ht.
    assert (F2 : button_false_state self2 = "normal") by exact Hf.
    assert (P2 : pending self2 = []).
    { subst self2 self1. cbn [drop_pending give_feedback with_quiz pending].
      now rewrite Hp. }
    clearbody self2. cbn [List.length] in Hlen.
    destruct clicks as [|b' clicks'].
    + destruct (get_next_question_finished self2)
        as (self3 & E & Fin & Q3); [| exact P2 |].
      { unfold still_has_questions. rewrite Q2, Hl1, Hq1.
        apply Z.ltb_ge. unfold len. cbn in Hlen. lia. }
      rewrite E. cbn [bind session mainloop]. exists self3.
      split; [reflexivity|]. split; [exact Fin|].
      rewrite Q3, Q2, Hl1, Hq1, Hs1.
      replace (skipn (S k) l) with (@nil Question).
      * cbn [right_answers List.map]. unfold len. cbn in Hlen.
        repeat split; lia.
      * symmetry. apply skipn_all2. cbn in Hlen. lia.
    + destruct (nth_error l (S k)) as [q'|] eqn:E'.
      2:{ apply nth_error_None in E'. cbn in Hlen. lia. }
      destruct (get_next_question_shows l (S k) q' self2)
        as (self3 & E & Sh & S3 & _); try assumption;
        [now rewrite Q2 | now rewrite Q2 |].
      rewrite E. cbn [bind].
      destruct (IH (S k) q' self3 Sh) as (self4 & E4 & Fin & S4 & N4 & L4);
        [lia|].
      exists self4. split; [exact E4|]. split; [exact Fin|].
      split; [|split; [exact N4 | exact L4]].
      rewrite S4, S3, Q2, Hs1. fold r. lia.
Qed.

Lemma mainloop_app es1 : forall self es2,
  mainloop unescape self (es1 ++ es2)
  = let* self' := mainloop unescape self es1 in mainloop unescape self' es2.
Proof.
  induction es1 as [|e es1 IH]; intros self es2; [reflexivity|].
  cbn [app mainloop].
  destruct (dispatch unescape self e); cbn [bind]; [apply IH | reflexivity].
Qed.

(** Clicks on one button while a question stays on the screen: every
    click is checked against that question and sets one more timer. *)
Lemma clicks_all_count q (b : bool) n : forall self,
  current_question (quiz self) = Some q ->
  button_true_state self = "normal" ->
  button_false_state self = "normal" ->
  exists self',
    mainloop unescape self (repeat (if b then ClickTrue else ClickFalse) n)
    = Returns self'
    /\ score (quiz self')
       = score (quiz self)
         + (if right_answer (button_answer b) q then Z.of_nat n else 0)
    /\ question_number (quiz self') = question_number (quiz self)
    /\ question_list (quiz self') = question_list (quiz self)
    /\ button_true_state self' = "normal"
    /\ button_false_state self' = "normal"
    /\ pending self' = (pending self ++ repeat 1000 n)%list.
Proof.
  induction n as [|n IH]; intros self Hc Ht Hf.
  - exists self. cbn [repeat mainloop]. rewrite app_nil_r.
    repeat split; try assumption. destruct (right_answer _ _); lia.
  - cbn [repeat mainloop].
    assert (D : exists quiz1,
               dispatch unescape self (if b then ClickTrue else ClickFalse)
               = Returns (give_feedback (with_quiz self quiz1)
                            (right_answer (button_answer b) q))
               /\ quiz1 = (if right_answer (button_answer b) q
                           then credited (quiz self) else quiz self)).
    { eexists. split; [|reflexivity].
      destruct b; cbn [dispatch]; [rewrite Ht | rewrite Hf];
        cbn [String.eqb]; unfold true_pressed, false_pressed;
        rewrite (check_answer_current _ _ _ Hc);
        unfold right_answer, button_answer;
        destruct (String.eqb _ _); reflexivity. }
    destruct D as (quiz1 & -> & Hq1). cbn [bind].
    set (r := right_answer (button_answer b) q) in *.
    destruct (IH (give_feedback (with_quiz self quiz1) r))
      as (self' & E & S' & N' & L' & T' & F' & P');
      [subst quiz1; now destruct r | exact Ht | exact Hf |].
    exists self'. split; [exact E|].
    cbn [give_feedback with_quiz quiz pending] in S', N', L', P'.
    split; [|split; [|split; [|split; [exact T'|split; [exact F'|]]]]].
    + rewrite S'. subst quiz1. destruct r; cbn [credited score]; lia.
    + rewrite N'. subst quiz1. now destruct r.
    + rewrite L'. subst quiz1. now destruct r.
    + rewrite P'. now rewrite <- app_assoc.
Qed.

(** Timers that expire while questions are left: each one fetches the
    next question, whether or not the last one was answered. *)
Lemma timers_each_fetch l n : forall k self,
  question_list (quiz self) = l ->
  question_number (quiz self) = Z.of_nat k ->
  (k + n <= List.length l)%nat ->
  button_true_state self = "normal" ->
  button_false_state self = "normal" ->
  pending self = repeat 1000 n ->
  exists self',
    mainloop unescape self (repeat TimerExpires n) = Returns self'
    /\ question_list (quiz self') = l
    /\ question_number (quiz self') = Z.of_nat (k + n)
    /\ score (quiz self') = score (quiz self)
    /\ (n <> O -> current_question (quiz self') = nth_error l (k + n - 1))
    /\ button_true_state self' = "normal"
    /\ button_false_state self' = "normal"
    /\ pending self' = [].
Proof.
  induction n as [|n IH]; intros k self Hl Hq Hk Ht Hf Hp.
  - exists self. cbn [repeat mainloop]. rewrite Nat.add_0_r.
    repeat split; try assumption. congruence.
  - cbn [repeat mainloop dispatch]. rewrite Hp. cbn [repeat].
    destruct (nth_error l k) as [q|] eqn:E.
    2:{ apply nth_error_None in E. lia. }
    assert (Hs : still_has_questions (quiz (drop_pending self)) = true).
    { apply still_has_questions_lt. cbn [drop_pending quiz]. unfold len.
      rewrite Hl, Hq. lia. }
    assert (Hn : nth_error (question_list (quiz self))
                   (Z.to_nat (question_number (quiz self))) = Some q)
      by now rewrite Hl, Hq, Nat2Z.id.
    unfold get_next_question. rewrite Hs. cbn [drop_pending quiz].
    rewrite (next_question_shown unescape (quiz self) q); [|lia|exact Hn].
    cbn [bind].
    match goal with |- context [mainloop unescape ?s _] => set (self1 := s) end.
    destruct (IH (S k) self1)
      as (self' & E' & L' & N' & S' & C' & T' & F' & P').
    { exact Hl. }
    { subst self1. cbn [quiz shown question_number]. lia. }
    { lia. }
    { exact Ht. }
    { exact Hf. }
    { subst self1. cbn [pending drop_pending]. now rewrite Hp. }
    exists self'. split; [exact E'|]. split; [exact L'|].
    split; [rewrite N'; f_equal; lia|]. split; [exact S'|].
    split; [|split; [exact T'|split; [exact F'|exact P']]].
    intros _. destruct n as [|n].
    + cbn [repeat mainloop] in E'. injection E' as <-.
      cbn. rewrite <- E. f_equal. lia.
    + rewrite C' by discriminate. f_equal. lia.
Qed.

Lemma set_pending_same self : set_pending self (pending self) = self.
Proof. now destruct self. Qed.

(** The call of [get_next_question] that finds no question left. *)
Lemma get_next_question_final self :
  still_has_questions (quiz self) = false ->
  exists final,
    get_next_question unescape self = Returns final
    /\ final_screen final
    /\ quiz final = quiz self
    /\ question_number_label final = question_number_label self
    /\ category_label final = category_label self
    /\ pending final = pending self.
Proof.
  intros Hs. unfold get_next_question. rewrite Hs.
  eexists. split; [reflexivity|]. unfold final_screen. cbn -[str_of_int].
  repeat split; try reflexivity. exact Hs.
Qed.

(** Called again on the final screen, it writes what is there. *)
Lemma final_screen_rewritten self timers :
  final_screen self ->
  get_next_question unescape (set_pending self timers)
  = Returns (set_pending self timers).
Proof.
  intros (Hs & Hb & Hl & Ht & Hf & Hbt & Hbf).
  unfold get_next_question. cbn [set_pending quiz]. rewrite Hs.
  destruct self. cbn -[str_of_int] in *. subst. reflexivity.
Qed.

(** The final screen stays: clicks are dropped, and a timer that expires
    rewrites the screen. *)
Lemma final_screen_stays es : forall self,
  final_screen self ->
  mainloop unescape self es
  = Returns (set_pending self (skipn (expiries es) (pending self))).
Proof.
  induction es as [|e es IH]; intros self Fin.
  - cbn. now rewrite set_pending_same.
  - pose proof Fin as (Hs & Hb & Hl & Ht & Hf & Hbt & Hbf).
    cbn [mainloop]. destruct e; cbn [dispatch expiries].
    + rewrite Hbt. cbn [String.eqb Ascii.eqb Bool.eqb bind]. now apply IH.
    + rewrite Hbf. cbn [String.eqb Ascii.eqb Bool.eqb bind]. now apply IH.
    + destruct (pending self) as [|t p] eqn:Hp.
      * cbn [bind]. rewrite (IH self Fin), Hp. now rewrite !skipn_nil.
      * change (drop_pending self) with (set_pending self (tl (pending self))).
        rewrite Hp. cbn [tl]. rewrite (final_screen_rewritten self p Fin).
        cbn [bind]. rewrite IH.
        -- reflexivity.
        -- exact Fin.
Qed.
End ScreenFacts.

(** X4. A session at the screen of a quiz that stands at position 0: one
    click and one timer per question lead to the final screen, which
    shows "Total Score: s/n" for the score s and the position n of the
    quiz, with both buttons disabled and no timer left; n is the number
    of questions and s has grown by the number of clicks on the button
    of the right answer. A quiz without questions shows the final screen
    at once. *)
Theorem session_ends_with_score
    (unescape : string -> string) (quiz0 : QuizBrain) (clicks : list bool) :
  question_number quiz0 = 0 ->
  List.length clicks = List.length (question_list quiz0) ->
  exists ui,
    (let* ui0 := QuizInterface_init unescape quiz0 in
     mainloop unescape ui0 (session clicks)) = Returns ui
    /\ finished ui
    /\ score (quiz ui)
       = score quiz0
         + right_answers (List.map button_answer clicks) (question_list quiz0)
    /\ question_number (quiz ui) = len (question_list quiz0).
Proof.
  intros Hq Hlen. unfold QuizInterface_init.
  destruct (question_list quiz0) as [|q l] eqn:El.
  - destruct clicks; [|discriminate].
    destruct (get_next_question_finished unescape (widgets quiz0))
      as (ui & E & Fin & Q); [| reflexivity |].
    { unfold still_has_questions. cbn [widgets quiz]. now rewrite Hq, El. }
    rewrite E. cbn [bind session mainloop]. exists ui.
    split; [reflexivity|]. split; [exact Fin|]. rewrite Q.
    cbn [widgets quiz List.map right_answers]. unfold len. cbn.
    split; lia.
  - destruct (get_next_question_shows unescape (q :: l) 0 q (widgets quiz0))
      as (ui0 & E & Sh & S0 & _); try reflexivity; try assumption.
    rewrite E. cbn [bind].
    destruct (session_from unescape (q :: l) clicks 0 q ui0 Sh)
      as (ui & E' & Fin & S' & N' & _); [cbn in *; lia|].
    exists ui. split; [exact E'|]. split; [exact Fin|].
    split; [|exact N'].
    rewrite S', S0. reflexivity.
Qed.

Lemma session_ends_with_score_witness :
  exists ui,
    (let* ui0 :=
       QuizInterface_init (html.unescape sample_html5)
         (QuizBrain_init sample_questions) in
     mainloop (html.unescape sample_html5) ui0
       (session [true; false; true])) = Returns ui
    /\ finished ui
    /\ score (quiz ui) = 2
    /\ question_number (quiz ui) = 3.
Proof.
  destruct (session_ends_with_score (html.unescape sample_html5)
              (QuizBrain_init sample_questions) [true; false; true])
    as (ui & E & Fin & Hs & Hq).
  - reflexivity.
  - reflexivity.
  - exists ui. auto.
Defined.

(** X5. When [get_next_question] finds no question left, the screen it
    writes is the end, also when timers of earlier clicks are still
    pending: a click on a disabled button does nothing, and a timer that
    expires calls [get_next_question], which writes the same screen
    again. Whatever events follow, the quiz and the screen stay as they
    are; only the pending timers get fewer. *)
Theorem final_screen_is_terminal
    (unescape : string -> string) (self : QuizInterface)
    (es : list event) :
  still_has_questions (quiz self) = false ->
  exists final,
    get_next_question unescape self = Returns final
    /\ final_screen final
    /\ quiz final = quiz self
    /\ pending final = pending self
    /\ mainloop unescape final es
       = Returns (set_pending final (skipn (expiries es) (pending self))).
Proof.
  intros Hs.
  destruct (get_next_question_final unescape self Hs)
    as (final & E & Fin & Hq & _ & _ & Hp).
  exists final. repeat split; try assumption; try apply Fin.
  rewrite <- Hp. now apply final_screen_stays.
Qed.

Lemma final_screen_is_terminal_witness :
  exists final,
    get_next_question (html.unescape sample_html5) sample_last_timer
    = Returns final
    /\ final_screen final
    /\ quiz final = quiz sample_last_timer
    /\ pending final = pending sample_last_timer
    /\ mainloop (html.unescape sample_html5) final
         [ClickTrue; TimerExpires; ClickFalse; TimerExpires; ClickTrue]
       = Returns
           (set_pending final
              (skipn
                 (expiries
                    [ClickTrue; TimerExpires; ClickFalse; TimerExpires;
                     ClickTrue])
                 (pending sample_last_timer))).
Proof.
  apply (final_screen_is_terminal (html.unescape sample_html5)
           sample_last_timer
           [ClickTrue; TimerExpires; ClickFalse; TimerExpires; ClickTrue]).
  reflexivity.
Defined.

(** X6. The buttons stay enabled while the card shows the colour of the
    last answer: n clicks on one button while one question is shown are
    all checked against that question, so n clicks on the right answer
    add n to the score (which can then exceed the position), and each
    click sets one more timer. *)
Theorem repeated_clicks_all_count
    (unescape : string -> string) (l : list Question) (k : nat)
    (q : Question) (self : QuizInterface) (b : bool) (n : nat) :
  showing l k q self ->
  exists self',
    mainloop unescape self (repeat (if b then ClickTrue else ClickFalse) n)
    = Returns self'
    /\ score (quiz self')
       = score (quiz self)
         + (if right_answer (button_answer b) q then Z.of_nat n else 0)
    /\ question_number (quiz self') = Z.of_nat (S k)
    /\ pending self' = repeat 1000 n.
Proof.
  intros (Hl & Hq & Hn & Hc & Ht & Hf & Hp).
  destruct (clicks_all_count unescape q b n self Hc Ht Hf)
    as (self' & E & S' & N' & _ & _ & _ & P').
  exists self'. rewrite Hp in P'. rewrite Hq in N'. auto.
Qed.

Lemma repeated_clicks_all_count_witness :
  exists self',
    mainloop (html.unescape sample_html5) sample_first_screen
      (repeat ClickTrue 3) = Returns self'
    /\ score (quiz self') = 3
    /\ question_number (quiz self') = 1
    /\ pending self' = [1000; 1000; 1000].
Proof.
  destruct (repeated_clicks_all_count (html.unescape sample_html5)
              sample_questions 0 first_question sample_first_screen true 3)
    as (self' & E & Hs & Hq & Hp).
  - repeat split; reflexivity.
  - exists self'. auto.
Defined.

(** X7. Every timer set by a click fetches a question when it expires:
    after n clicks on one question and the n timers they set, with at
    least n questions left after it, the screen shows the n-th question
    after it, and the n - 1 questions in between were shown without
    ever being answered. *)
Theorem pending_timers_skip_questions
    (unescape : string -> string) (l : list Question) (k : nat)
    (q : Question) (self : QuizInterface) (b : bool) (n : nat) :
  showing l k q self ->
  (S k + n <= List.length l)%nat ->
  exists self',
    mainloop unescape self
      (repeat (if b then ClickTrue else ClickFalse) n
       ++ repeat TimerExpires n)
    = Returns self'
    /\ question_number (quiz self') = Z.of_nat (S k + n)
    /\ (n <> O -> current_question (quiz self') = nth_error l (k + n))
    /\ score (quiz self')
       = score (quiz self)
         + (if right_answer (button_answer b) q then Z.of_nat n else 0)
    /\ pending self' = [].
Proof.
  intros (Hl & Hq & Hn & Hc & Ht & Hf & Hp) Hk.
  destruct (clicks_all_count unescape q b n self Hc Ht Hf)
    as (self1 & E1 & S1 & N1 & L1 & T1 & F1 & P1).
  rewrite Hp in P1. cbn [app] in P1.
  destruct (timers_each_fetch unescape l n (S k) self1)
    as (self2 & E2 & L2 & N2 & S2 & C2 & _ & _ & P2); try assumption;
    [congruence | congruence |].
  exists self2. rewrite mainloop_app, E1. cbn [bind].
  split; [exact E2|]. split; [exact N2|].
  split; [|split; [congruence|exact P2]].
  intros H. rewrite (C2 H). f_equal. lia.
Qed.

Lemma pending_timers_skip_questions_witness :
  exists self',
    mainloop (html.unescape sample_html5) sample_first_screen
      [ClickFalse; ClickFalse; TimerExpires; TimerExpires] = Returns self'
    /\ question_number (quiz self') = 3
    /\ current_question (quiz self') = Some third_question
    /\ score (quiz self') = 0.
Proof.
  destruct (pending_timers_skip_questions (html.unescape sample_html5)
              sample_questions 0 first_question sample_first_screen false 2)
    as (self' & E & Hq & Hc & Hs & _).
  - repeat split; reflexivity.
  - cbn. lia.
  - exists self'. split; [exact E|]. split; [exact Hq|].
    split; [apply Hc; discriminate | exact Hs].
Defined.

(** X8. When the fetch delivered at least one record, [main.py] builds a
    quiz and the screen opens on its first question: the category label
    shows the unescaped category of the first record, the card shows
    "Q.1: " and the unescaped question, and the number label shows
    "Question 1/" followed by the number of questions that was asked
    for, whatever number of records was delivered. *)
Theorem first_screen_after_main
    (unescape : string -> string) (number_of_questions : Z)
    (r : question_record) (rest : list question_record) :
  exists quiz0 ui,
    main_quiz unescape number_of_questions (Some (r :: rest)) = Returns quiz0
    /\ QuizInterface_init unescape quiz0 = Returns ui
    /\ question_number_label ui
       = "Question 1/" ++ str_of_int number_of_questions
    /\ score_label ui = "Score: 0"
    /\ category_label ui = unescape (rec_category r)
    /\ question_text ui = "Q.1: " ++ unescape (rec_question r)
    /\ showing (question_bank (r :: rest)) 0
         (mkQuestion (rec_question r) (rec_correct_answer r)) ui.
Proof.
  eexists. eexists. split; [reflexivity|]. split; [reflexivity|].
  unfold showing. cbn -[str_of_int]. repeat split; reflexivity.
Qed.

(* ===================================================================== *)
(** * Further properties of the question fetcher                          *)
(* ===================================================================== *)

Section FetchRuns.

Variable service : nat -> response.
Variable category_code : Z.

(** What one pass through the loop body returns, reply by reply. *)
Lemma iteration_leaf n w x :
  x ∈ interp_state (handle service) (fetch_iteration category_code n) w ->
  (n <= 0 /\ x = (w, inr (Returns None)))
  \/ (0 < n
      /\ exists es,
          fst x = extend w 1 (Requested n category_code :: es)
          /\ amounts es = [] /\ Forall (expected_entry n category_code) es
          /\ match service (served w) with
             | Json code results =>
                 if code =? 0 then snd x = inr (Returns (Some results))
                 else snd x = inl (n - 1)
             | HTTPError status =>
                 if status =? 429 then snd x = inl n
                 else snd x = inr (Returns None)
             | Failure e => snd x = inr (Raises e)
             end).
Proof.
  intros Hx. destruct (Z.ltb_spec 0 n) as [Hn|Hn].
  2:{ left. rewrite iteration_exhausted in Hx by assumption.
      apply Leaf_Ret_inv in Hx. auto. }
  right. split; [exact Hn|].
  destruct (service (served w)) as [code rs|status|e] eqn:E.
  - destruct (Z.eqb_spec code 0) as [->|Hc].
    + rewrite (iteration_success service category_code n w rs Hn E) in Hx.
      apply Leaf_Ret_inv in Hx. subst x. exists []. cbn. auto.
    + rewrite (iteration_invalid service category_code n w code rs Hn E Hc)
        in Hx.
      apply Leaf_Ret_inv in Hx. subst x. eexists. cbn.
      split; [reflexivity|]. split; [reflexivity|].
      split; [|reflexivity]. repeat constructor.
  - destruct (Z.eqb_spec status 429) as [->|Hc].
    + rewrite (iteration_rate_limited service category_code n w Hn E) in Hx.
      apply Leaf_Ret_inv in Hx. subst x. eexists. cbn.
      split; [reflexivity|]. split; [reflexivity|].
      split; [|reflexivity]. repeat constructor.
    + rewrite (iteration_http_error service category_code n w status Hn E Hc)
        in Hx.
      apply Leaf_Ret_inv in Hx. subst x. eexists. cbn.
      split; [reflexivity|]. split; [reflexivity|].
      split; [|reflexivity]. repeat constructor.
  - rewrite (iteration_failure service category_code n w e Hn E) in Hx.
    apply Leaf_Ret_inv in Hx. subst x. exists []. cbn. auto.
Qed.

Lemma returned_is_leaf {R : Type} (t : itree void1 R) (x : R) :
  t ≈ Ret x -> x ∈ t.
Proof. intros E. rewrite E. apply Leaf_Ret. Qed.

(** A run that ends was decided by the reply to its last request. *)
Lemma fetch_origin n w w' r :
  fetch_against service n category_code w ≈ Ret (w', r) ->
  decided_by_last_reply service n w w' r.
Proof.
  intros E. unfold fetch_against, fetch_question_data in E.
  rewrite eutt_eq_interp_state_iter in E.
  apply returned_is_leaf in E.
  unfold Basics.iter, MonadIter_stateT0, Basics.iter, MonadIter_itree in E.
  apply (Leaf_iter_inv _ _
           (fun si : world * Z =>
              (fst si = w /\ snd si = n)
              \/ exists j,
                   last_request w (fst si) j
                   /\ (invalid (service j)
                       \/ (service j = HTTPError 429 /\ 0 < snd si)))
           (fun sr : world * py (option (list question_record)) =>
              decided_by_last_reply service n w (fst sr) (snd sr)))
    in E; [exact E | | left; auto].
  clear E w' r. intros [s i] x Inv Hx. cbn [fst snd] in *.
  apply Leaf_bind_inv in Hx as (b & Hb & Hx).
  apply Leaf_Ret_inv in Hx. subst x.
  destruct (iteration_leaf i s b Hb)
    as [[Hi ->] | (Hi & es & Hw & _ & _ & Hr)].
  - cbn. destruct Inv as [[-> ->] | (j & Hj & [Hv | [_ Hp]])].
    + left. auto.
    + right. exists j. auto.
    + lia.
  - destruct b as [s' y]. cbn [fst snd] in *. subst s'.
    assert (Hl : last_request w (extend s 1 (Requested i category_code :: es))
                   (served s)).
    { unfold last_request. cbn.
      destruct Inv as [[-> _] | (j & [Hj1 Hj2] & _)]; lia. }
    destruct (service (served s)) as [code rs|status|e] eqn:Es.
    + destruct (Z.eqb_spec code 0) as [->|Hc]; subst y; cbn.
      * exists (served s). auto.
      * right. exists (served s). split; [exact Hl|]. left.
        exists code, rs. auto.
    + destruct (Z.eqb_spec status 429) as [->|Hc]; subst y; cbn.
      * right. exists (served s). auto.
      * right. exists (served s). split; [exact Hl|]. right.
        exists status. auto.
    + subst y. cbn. exists (served s). auto.
Qed.
Lemma fetch_journal count n w w' r :
  n <= count ->
  Forall (expected_entry count category_code) (journal w) ->
  fetch_against service n category_code w ≈ Ret (w', r) ->
  Forall (expected_entry count category_code) (journal w').
Proof.
  intros Hn Hj E. apply returned_is_leaf in E.
  unfold fetch_against, fetch_question_data in E.
  apply (Leaf_interp_state_iter_inv (handle service)
           (fetch_iteration category_code)
           (fun s => Forall (expected_entry count category_code) (journal s))
           (fun i => i <= count) (fun _ => True)) in E; auto.
  - apply E.
  - intros s i Hs Hi x Hx.
    destruct (iteration_leaf i s x Hx)
      as [[_ ->] | (Hi' & es & Hw & _ & He & Hr)].
    + split; cbn; auto.
    + destruct x as [s' y]. cbn [fst snd] in Hw, Hr. subst s'.
      split.
      * cbn. apply Forall_app. split; [exact Hs|].
        constructor; [cbn; lia|].
        eapply Forall_impl; [|exact He]. intros [] H; cbn in *; auto. lia.
      * destruct (service (served s)) as [code rs|status|e].
        -- destruct (code =? 0); subst y; cbn; auto. lia.
        -- destruct (status =? 429); subst y; cbn; auto.
        -- subst y. cbn. auto.
Qed.

Lemma fetch_failure n w e :
  0 < n -> service (served w) = Failure e ->
  fetch_against service n category_code w
  ≈ Ret (extend w 1 [Requested n category_code], Raises e).
Proof.
  intros Hn Hs. rewrite fetch_unfold, iteration_failure by eassumption.
  rewrite bind_ret_l. reflexivity.
Qed.

(** Without rate limiting the loop ends within [n] requests. *)
Lemma fetch_terminates k : forall n w,
  n <= Z.of_nat k ->
  (forall i, (i < k)%nat -> is_rate_limited (service (served w + i)) = false) ->
  exists w' r,
    fetch_against service n category_code w ≈ Ret (w', r)
    /\ (served w' <= served w + k)%nat
    /\ pauses (journal w') = pauses (journal w).
Proof.
  induction k as [|k IH]; intros n w Hn Hall.
  - exists w, (Returns None). split; [apply fetch_exhausted; lia|].
    split; [lia | reflexivity].
  - destruct (Z.ltb_spec 0 n) as [Hp|Hp].
    2:{ exists w, (Returns None). split; [now apply fetch_exhausted|].
        split; [lia | reflexivity]. }
    pose proof (Hall 0%nat (Nat.lt_0_succ k)) as H0. rewrite Nat.add_0_r in H0.
    destruct (service (served w)) as [code rs|status|e] eqn:E.
    + destruct (Z.eqb_spec code 0) as [->|Hc].
      * eexists. eexists.
        split; [exact (fetch_success service category_code n w rs Hp E)|].
        split; cbn; [lia|]. rewrite pauses_app. cbn. now rewrite app_nil_r.
      * destruct (IH (n - 1)
                    (extend w 1 (invalid_attempt n category_code code)))
          as (w' & r & He & Hs & Hp'); [lia | |].
        { intros i Hi. cbn.
          replace (served w + 1 + i)%nat with (served w + S i)%nat by lia.
          apply Hall. lia. }
        exists w', r. split.
        -- rewrite (fetch_invalid service category_code n w code rs)
             by assumption. exact He.
        -- split; [cbn in Hs; lia|]. rewrite Hp'. cbn.
           rewrite pauses_app. cbn. now rewrite app_nil_r.
    + cbn in H0. apply Z.eqb_neq in H0.
      eexists. eexists.
      split;
        [exact (fetch_http_error service category_code n w status Hp E H0)|].
      split; cbn; [lia|]. rewrite pauses_app. cbn. now rewrite app_nil_r.
    + eexists. eexists. split; [exact (fetch_failure n w e Hp E)|].
      split; cbn; [lia|]. rewrite pauses_app. cbn. now rewrite app_nil_r.
Qed.

End FetchRuns.

(** X9. For a count of zero or less the loop is never entered: the
    function returns [None] and makes no request. *)
Theorem fetch_makes_no_request_without_count
    (service : nat -> response) (category_code n : Z) (w : world) :
  n <= 0 ->
  fetch_against service n category_code w ≈ Ret (w, Returns None).
Proof. intros Hn. now apply fetch_exhausted. Qed.

Lemma fetch_makes_no_request_without_count_witness :
  fetch_against degrading_service 0 0 fresh ≈ Ret (fresh, Returns None).
Proof.
  apply (fetch_makes_no_request_without_count degrading_service 0 0 fresh).
  lia.
Defined.

(** X10. An exception of the request that is not an [HTTPError] (no
    connection, a body that is not JSON) is not caught: it leaves the
    function after this one request, and nothing is printed. *)
Theorem fetch_propagates_other_exceptions
    (service : nat -> response) (category_code n : Z) (w : world)
    (e : exception) :
  0 < n ->
  service (served w) = Failure e ->
  fetch_against service n category_code w
  ≈ Ret (extend w 1 [Requested n category_code], Raises e).
Proof. intros Hn Hs. now apply fetch_failure. Qed.

Lemma fetch_propagates_other_exceptions_witness :
  fetch_against unreachable_service 10 9 fresh
  ≈ Ret (extend fresh 1 [Requested 10 9], Raises RequestException).
Proof.
  apply (fetch_propagates_other_exceptions unreachable_service 9 10 fresh
           RequestException).
  - lia.
  - reflexivity.
Defined.

(** X11. When none of the next [count] replies is rate-limited, the
    function ends, with a result or an exception, after at most [count]
    requests and without a pause. *)
Theorem fetch_ends_within_count_requests
    (service : nat -> response) (category_code n : Z) (w : world) :
  (forall i, (i < Z.to_nat n)%nat ->
             is_rate_limited (service (served w + i)%nat) = false) ->
  exists w' r,
    fetch_against service n category_code w ≈ Ret (w', r)
    /\ (served w' <= served w + Z.to_nat n)%nat
    /\ pauses (journal w') = pauses (journal w).
Proof.
  intros Hall. apply fetch_terminates; [lia | exact Hall].
Qed.

Lemma fetch_ends_within_count_requests_witness :
  exists w' r,
    fetch_against degrading_service 5 9 fresh ≈ Ret (w', r)
    /\ (served w' <= 5)%nat
    /\ pauses (journal w') = [].
Proof.
  apply (fetch_ends_within_count_requests degrading_service 9 5 fresh).
  intros [|[|i]] _; reflexivity.
Defined.

(** X12. Whatever the service does, when a run ends, its outcome is the
    one the reply to its last request brings about: results it returns
    are the results of that reply, whose [response_code] is 0; an
    exception it raises is the one that request raised; and it returns
    [None] only when the count was not positive and no request was
    made, or when the last reply had another [response_code] or was an
    HTTP error other than 429. *)
Theorem fetch_results_come_from_a_valid_reply
    (service : nat -> response) (category_code n : Z) (w w' : world)
    (r : py (option (list question_record))) :
  fetch_against service n category_code w ≈ Ret (w', r) ->
  decided_by_last_reply service n w w' r.
Proof. apply fetch_origin. Qed.

Lemma fetch_results_come_from_a_valid_reply_witness :
  exists w',
    fetch_against degrading_service 5 9 fresh
    ≈ Ret (w', Returns (Some sample_data))
    /\ decided_by_last_reply degrading_service 5 fresh w'
         (Returns (Some sample_data)).
Proof.
  destruct (fetch_reaches_valid degrading_service 9 2 5 fresh sample_data)
    as (w' & E & _).
  - intros [|[|i]] Hi; [reflexivity | reflexivity | lia].
  - cbn. lia.
  - reflexivity.
  - exists w'. split; [exact E|].
    exact (fetch_results_come_from_a_valid_reply degrading_service
             9 5 fresh w' (Returns (Some sample_data)) E).
Defined.

(** X13. In a run that ends, every request asked for at least 1 and at
    most [count] questions, in the category the function was called
    with, and every pause lasted 2 seconds. *)
Theorem fetch_requests_stay_within_count
    (service : nat -> response) (category_code n : Z) (w w' : world)
    (r : py (option (list question_record))) :
  Forall (expected_entry n category_code) (journal w) ->
  fetch_against service n category_code w ≈ Ret (w', r) ->
  Forall (expected_entry n category_code) (journal w').
Proof.
  intros Hj E.
  now apply (fetch_journal service category_code n n w w' r).
Qed.

Lemma fetch_requests_stay_within_count_witness :
  Forall (expected_entry 10 9)
    (journal
       (extend fresh 1 [Requested 10 9; Printed (RequestFailed 503)])).
Proof.
  apply (fetch_requests_stay_within_count broken_service 9 10 fresh
           (extend fresh 1 [Requested 10 9; Printed (RequestFailed 503)])
           (Returns None)).
  - constructor.
  - apply fetch_http_error; [lia | reflexivity | discriminate].
Defined.

(* ===================================================================== *)
(** * Further properties of main.py                                       *)
(* ===================================================================== *)

Section MainFacts.

Variable unescape : string -> string.
Variable service : nat -> response.

(** The program ends where the fetch ends, with what the rest of
    [main.py] makes of the fetched value. *)
Lemma main_after_fetch category_code n w w' r :
  fetch_against service n category_code w ≈ Ret (w', r) ->
  main_against unescape service category_code n w
  ≈ Ret (w', let* data := r in
             let* quiz0 := main_quiz unescape n data in
             QuizInterface_init unescape quiz0).
Proof.
  intros E. unfold main_against, main_program.
  rewrite interp_state_bind. fold (fetch_against service n category_code w).
  rewrite E, bind_ret_l. cbn [fst snd]. rewrite interp_state_ret.
  reflexivity.
Qed.

End MainFacts.

(** X14. [main.py] has no fallback. When the fetch ends, the program ends
    in the same world: an exception of the fetch propagates; [None]
    (the fetch gave up) makes the subscript raise [TypeError]; an empty
    list of results makes it raise [IndexError]; and a list with at
    least one record opens the screen on the first question, with the
    requested number as total and the unescaped category of the first
    record as category. *)
Theorem main_outcome_follows_fetch
    (unescape : string -> string) (service : nat -> response)
    (category_code n : Z) (w w' : world)
    (r : py (option (list question_record))) :
  fetch_against service n category_code w ≈ Ret (w', r) ->
  match r with
  | Raises e =>
      main_against unescape service category_code n w ≈ Ret (w', Raises e)
  | Returns None =>
      main_against unescape service category_code n w
      ≈ Ret (w', Raises TypeError)
  | Returns (Some []) =>
      main_against unescape service category_code n w
      ≈ Ret (w', Raises IndexError)
  | Returns (Some (first :: rest)) =>
      exists ui,
        main_against unescape service category_code n w
        ≈ Ret (w', Returns ui)
        /\ showing (question_bank (first :: rest)) 0
             (mkQuestion (rec_question first) (rec_correct_answer first)) ui
        /\ total_questions (quiz ui) = n
        /\ category (quiz ui) = unescape (rec_category first)
  end.
Proof.
  intros E. pose proof (main_after_fetch unescape service _ _ _ _ _ E) as M.
  destruct r as [[[|first rest]|]|e]; try exact M.
  eexists. split; [exact M|].
  unfold showing. cbn -[str_of_int]. repeat split; reflexivity.
Qed.

Lemma main_outcome_follows_fetch_witness :
  main_against (html.unescape sample_html5) broken_service 9 10 fresh
  ≈ Ret (extend fresh 1 [Requested 10 9; Printed (RequestFailed 503)],
         Raises TypeError).
Proof.
  apply (main_outcome_follows_fetch (html.unescape sample_html5)
           broken_service 9 10 fresh
           (extend fresh 1 [Requested 10 9; Printed (RequestFailed 503)])
           (Returns None)).
  apply fetch_http_error; [lia | reflexivity | discriminate].
Defined.

(** X15. When the service has fewer questions than were asked for, the
    fetch settles for a smaller amount, but the quiz keeps the number
    that was asked for as its total: after [k] replies without results
    and a valid reply, the last request asked for [n - k] questions, the
    quiz holds the records of that reply, and the screen opens with
    "Question 1/n". *)
Theorem degraded_fetch_keeps_requested_total
    (unescape : string -> string) (service : nat -> response)
    (category_code n : Z) (w : world) (k : nat)
    (first : question_record) (rest : list question_record) :
  Z.of_nat k < n ->
  (forall i, (i < k)%nat -> invalid (service (served w + i)%nat)) ->
  service (served w + k)%nat = Json 0 (first :: rest) ->
  exists w' ui,
    main_against unescape service category_code n w ≈ Ret (w', Returns ui)
    /\ amounts (journal w')
       = (amounts (journal w) ++ countdown n (S k))%list
    /\ question_number_label ui = "Question 1/" ++ str_of_int n
    /\ total_questions (quiz ui) = n
    /\ len (question_list (quiz ui)) = len (first :: rest).
Proof.
  intros Hk Hall Hs.
  destruct (fetch_degrades service category_code k n w)
    as (w1 & He & Hserved & Ha & _); [lia | exact Hall |].
  rewrite <- Hserved in Hs.
  assert (E : fetch_against service n category_code w
              ≈ Ret (extend w1 1 [Requested (n - Z.of_nat k) category_code],
                     Returns (Some (first :: rest)))).
  { rewrite He. apply fetch_success; [lia | exact Hs]. }
  pose proof (main_after_fetch unescape service _ _ _ _ _ E) as M.
  eexists. eexists. split; [exact M|].
  split; [|split; [reflexivity|split; [reflexivity|]]].
  - cbn [extend journal]. rewrite amounts_app, Ha, <- app_assoc.
    f_equal. apply countdown_snoc.
  - unfold len. cbn. now rewrite List.length_map.
Qed.

Lemma degraded_fetch_keeps_requested_total_witness :
  exists w' ui,
    main_against (html.unescape sample_html5) degrading_service 9 5 fresh
    ≈ Ret (w', Returns ui)
    /\ amounts (journal w') = [5; 4; 3]
    /\ question_number_label ui = "Question 1/5"
    /\ total_questions (quiz ui) = 5
    /\ len (question_list (quiz ui)) = 3.
Proof.
  apply (degraded_fetch_keeps_requested_total (html.unescape sample_html5)
           degrading_service 9 5 fresh 2
           (mkRecord "Science &amp; Nature"
              "Tom &amp; Jerry are a cat and a mouse." "True")
           (tl sample_data)).
  - lia.
  - intros [|[|i]] Hi; [| |lia]; exists 1, []; split; (reflexivity || lia).
  - reflexivity.
Defined.

(* ===================================================================== *)
(** * Properties of the setup window                                      *)
(* ===================================================================== *)

Section SetupFacts.

Import setup.

Lemma int_str z : int (str_of_int z) = Some z.
Proof.
  unfold int, str_of_int.
  rewrite NilZero.isi.
  - cbn [option_map]. now rewrite DecimalZ.of_to.
  - destruct z; cbn; intros H; try discriminate.
    injection H as H. now apply Unsigned.to_uint_nonnil in H.
  - destruct z; cbn; intros H; try discriminate.
    injection H as H. now apply Unsigned.to_uint_nonnil in H.
Qed.

Lemma init_selecting :
  selecting_state QuizSetup_init 10 "General Knowledge".
Proof.
  unfold selecting_state. cbn -[str_of_int].
  repeat split; try reflexivity; try tauto.
  - exists 9. tauto.
  - intros btn H. repeat (destruct H as [<- | H]; [reflexivity|]). destruct H.
Qed.

Lemma existsb_number v :
  existsb (Z.eqb v) options_number_of_questions = true ->
  In v options_number_of_questions.
Proof.
  intros H. apply existsb_exists in H as (x & Hx & E).
  apply Z.eqb_eq in E. now subst.
Qed.

Lemma existsb_category name :
  existsb (fun o => String.eqb (fst o) name) options_category = true ->
  exists code, In (name, code) options_category.
Proof.
  intros H. apply existsb_exists in H as ([n c] & Hx & E).
  apply String.eqb_eq in E. cbn in E. subst. eauto.
Qed.

Lemma str_of_int_inj a b : str_of_int a = str_of_int b -> a = b.
Proof.
  intros H. apply (f_equal int) in H. rewrite !int_str in H.
  now injection H.
Qed.

Lemma eqb_str_of_int a b :
  String.eqb (str_of_int a) (str_of_int b) = (b =? a).
Proof.
  destruct (Z.eqb_spec b a) as [->|N].
  - apply String.eqb_refl.
  - apply String.eqb_neq. intros H. apply str_of_int_inj in H. congruence.
Qed.

Lemma select_keeps s number name v :
  selecting_state s number name ->
  In v options_number_of_questions ->
  selecting_state (select_option s v) v name.
Proof.
  intros (H1 & H2 & H3 & H4 & H5 & H6 & H7 & H8 & H9) Hv.
  unfold selecting_state.
  cbn -[str_of_int options_number_of_questions options_category].
  repeat split; try assumption.
  - rewrite List.map_map, <- H8. apply List.map_ext.
    intros btn. now destruct (String.eqb _ _).
  - intros btn' Hin. apply in_map_iff in Hin as (btn & <- & _).
    destruct (String.eqb (button_text btn) (str_of_int v)) eqn:E;
      cbn [button_text]; rewrite E; reflexivity.
Qed.

Lemma pick_keeps s number name name' :
  selecting_state s number name ->
  (exists code, In (name', code) options_category) ->
  selecting_state (pick s name') number name'.
Proof.
  intros (H1 & H2 & H3 & H4 & H5 & H6 & H7 & H8 & H9) Hn.
  unfold selecting_state.
  cbn -[str_of_int options_number_of_questions options_category].
  repeat split; assumption.
Qed.

Lemma selections es : forall s number name,
  forallb selecting es = true ->
  selecting_state s number name ->
  exists s',
    mainloop s es = Some s'
    /\ selecting_state s' (selected_number es number)
         (selected_category es name).
Proof.
  induction es as [|e es IH]; intros s number name Hes Hs.
  - exists s. auto.
  - cbn [forallb] in Hes. apply andb_true_iff in Hes as [He Hes].
    pose proof Hs as (_ & _ & _ & _ & Ho & _).
    cbn [mainloop]. rewrite Ho.
    destruct e as [v|nm| |]; try discriminate;
      cbn [dispatch selected_number selected_category].
    + destruct (existsb (Z.eqb v) options_number_of_questions) eqn:E.
      * apply IH; [exact Hes|].
        apply select_keeps with (number := number); [exact Hs|].
        now apply existsb_number.
      * now apply IH.
    + destruct (existsb (fun o => String.eqb (fst o) nm) options_category)
        eqn:E.
      * apply IH; [exact Hes|].
        apply pick_keeps with (name := name); [exact Hs|].
        now apply existsb_category.
      * now apply IH.
Qed.

Lemma find_code_in name code :
  In (name, code) options_category ->
  find_code options_category name = Some code.
Proof.
  intros H. repeat (destruct H as [[= <- <-] | H]; [reflexivity|]).
  destruct H.
Qed.

Lemma setup_mainloop_app es1 : forall s es2,
  mainloop s (es1 ++ es2)
  = match mainloop s es1 with
    | Some s' => mainloop s' es2
    | None => None
    end.
Proof.
  induction es1 as [|e es1 IH]; intros s es2; [reflexivity|].
  cbn [app mainloop]. destruct (window_open s) eqn:Ho.
  - destruct (dispatch s e); [apply IH | reflexivity].
  - destruct es2; cbn [mainloop]; [reflexivity | now rewrite Ho].
Qed.

Lemma setup_mainloop_closed es : forall s,
  window_open s = false -> mainloop s es = Some s.
Proof.
  intros s H. destruct es; cbn [mainloop]; [reflexivity | now rewrite H].
Qed.

(** X16. However the user clicked number buttons and picked categories
    before, PROCEED closes the window and stores the number selected
    last (10 when none was clicked) and the code of the category picked
    last (General Knowledge when none was picked): the number is one of
    10, 15, 20, 25, 30, the code is never [None], and what happens in
    the window afterwards changes nothing. *)
Theorem proceed_returns_selection (es later : list event) :
  forallb selecting es = true ->
  exists s code,
    mainloop QuizSetup_init (es ++ ClickProceed :: later) = Some s
    /\ window_open s = false
    /\ number_of_questions s = selected_number es 10
    /\ In (number_of_questions s) options_number_of_questions
    /\ category_code s = Some code
    /\ In (selected_category es "General Knowledge", code) options_category.
Proof.
  intros Hes.
  destruct (selections es QuizSetup_init 10 "General Knowledge" Hes
              init_selecting)
    as (s1 & E1 & H1 & H2 & H3 & H4 & H5 & H6 & (code & H7) & _).
  rewrite setup_mainloop_app, E1. cbn [mainloop dispatch]. rewrite H5.
  unfold get_quiz_settings. rewrite H3, int_str, H4, (find_code_in _ _ H7).
  eexists. exists code. split; [now apply setup_mainloop_closed|].
  cbn. auto.
Qed.

Lemma proceed_returns_selection_witness :
  exists s code,
    mainloop QuizSetup_init
      ([ClickNumber 20; PickCategory "History"; ClickNumber 7]
       ++ [ClickProceed; ClickNumber 30])
    = Some s
    /\ window_open s = false
    /\ number_of_questions s = 20
    /\ In (number_of_questions s) options_number_of_questions
    /\ category_code s = Some code
    /\ In ("History", code) options_category.
Proof.
  apply (proceed_returns_selection
           [ClickNumber 20; PickCategory "History"; ClickNumber 7]
           [ClickNumber 30]).
  reflexivity.
Defined.

(** X17. While the user selects, the five number buttons keep their
    texts, and exactly the button of the selected number shows the
    colours of a selected button. *)
Theorem selected_button_is_highlighted (es : list event) :
  forallb selecting es = true ->
  exists s,
    mainloop QuizSetup_init es = Some s
    /\ selected_option s = str_of_int (selected_number es 10)
    /\ List.map button_text (number_buttons s)
       = List.map str_of_int options_number_of_questions
    /\ List.map highlighted (number_buttons s)
       = List.map (Z.eqb (selected_number es 10)) options_number_of_questions.
Proof.
  intros Hes.
  destruct (selections es QuizSetup_init 10 "General Knowledge" Hes
              init_selecting)
    as (s & E & _ & _ & H3 & _ & _ & _ & _ & H8 & H9).
  exists s. split; [exact E|]. split; [exact H3|]. split; [exact H8|].
  assert (G : forall bs vs,
             List.map button_text bs = List.map str_of_int vs ->
             (forall btn, In btn bs ->
                highlighted btn
                = String.eqb (button_text btn)
                    (str_of_int (selected_number es 10))) ->
             List.map highlighted bs
             = List.map (Z.eqb (selected_number es 10)) vs).
  { induction bs as [|b bs IHb]; intros [|v vs] Hm Hh; try discriminate;
      [reflexivity|].
    cbn [List.map] in *. injection Hm as Hb Hm. f_equal.
    - rewrite (Hh b (or_introl eq_refl)), Hb. apply eqb_str_of_int.
    - apply IHb; [exact Hm|]. intros btn Hin. apply Hh. now right. }
  now apply G.
Qed.

Lemma selected_button_is_highlighted_witness :
  exists s,
    mainloop QuizSetup_init
      [ClickNumber 20; PickCategory "History"; ClickNumber 25]
    = Some s
    /\ selected_option s = "25"
    /\ List.map button_text (number_buttons s)
       = ["10"; "15"; "20"; "25"; "30"]
    /\ List.map highlighted (number_buttons s)
       = [false; false; false; true; false].
Proof.
  apply (selected_button_is_highlighted
           [ClickNumber 20; PickCategory "History"; ClickNumber 25]).
  reflexivity.
Defined.

(** X18. When the user closes the setup window without PROCEED, whatever
    was selected, the stored number of questions and category code are
    still 0; [main.py] then fetches nothing, makes no request, and ends
    with [TypeError]. *)
Theorem closing_the_setup_window_ends_main
    (es later : list event) (unescape : string -> string)
    (service : nat -> response) (w : world) :
  forallb selecting es = true ->
  exists s,
    mainloop QuizSetup_init (es ++ CloseWindow :: later) = Some s
    /\ number_of_questions s = 0
    /\ category_code s = Some 0
    /\ main_against unescape service 0 0 w ≈ Ret (w, Raises TypeError).
Proof.
  intros Hes.
  destruct (selections es QuizSetup_init 10 "General Knowledge" Hes
              init_selecting)
    as (s1 & E1 & H1 & H2 & _ & _ & H5 & _).
  rewrite setup_mainloop_app, E1. cbn [mainloop dispatch]. rewrite H5.
  exists (close s1). split; [now apply setup_mainloop_closed|].
  split; [exact H2|]. split; [exact H1|].
  apply (main_after_fetch unescape service 0 0 w w (Returns None)).
  apply fetch_exhausted. lia.
Qed.

Lemma closing_the_setup_window_ends_main_witness :
  exists s,
    mainloop QuizSetup_init
      ([ClickNumber 20; PickCategory "History"] ++ [CloseWindow])
    = Some s
    /\ number_of_questions s = 0
    /\ category_code s = Some 0
    /\ main_against (html.unescape sample_html5) degrading_service 0 0 fresh
       ≈ Ret (fresh, Raises TypeError).
Proof.
  apply (closing_the_setup_window_ends_main
           [ClickNumber 20; PickCategory "History"] []
           (html.unescape sample_html5) degrading_service fresh).
  reflexivity.
Defined.

End SetupFacts.
